(** * Cloud object cache of audiobookshelf: a shallow embedding

    Sources embedded here:
    - [src/server/managers/StorageManager.js]  (module [Files] below),
    - [src/unnamed/part_000], the archive flavour of the same manager
      (module [Archive] below),
    - [src/server/migrations/v2.31.0-add-default-permission.js]
      (module [Migration]),
    - [src/client/components/tables/LibraryFilesTableRow.vue]
      (module [LibraryFilesTableRow]). *)

From Stdlib Require Import ZArith Ascii String List Bool Lia.
From stdpp Require Import base option gmap strings list fin_maps pretty.

Local Open Scope string_scope.

(** ** JavaScript strings

    A JavaScript string is a sequence of UTF-16 code units.  The model uses
    Rocq strings, so a character is a code unit below 256 (Basic Latin and
    the Latin-1 supplement), which is the alphabet the sanitising regular
    expressions tell apart: every code unit outside [a-zA-Z0-9/.] and the
    white space class is treated by them alike. *)

Definition chars (s : string) : list ascii := list_ascii_of_string s.
Definition str (l : list ascii) : string := string_of_list_ascii l.

Definition charCode (c : ascii) : N := N_of_ascii c.

Definition inRange (lo hi : N) (c : ascii) : bool :=
  ((lo <=? charCode c) && (charCode c <=? hi))%N.

Definition isUpper (c : ascii) : bool := inRange 65 90 c.   (* A-Z *)
Definition isLower (c : ascii) : bool := inRange 97 122 c.  (* a-z *)
Definition isDigit (c : ascii) : bool := inRange 48 57 c.   (* 0-9 *)
Definition isSlash (c : ascii) : bool := (charCode c =? 47)%N.
Definition isDot (c : ascii) : bool := (charCode c =? 46)%N.
Definition isDash (c : ascii) : bool := (charCode c =? 45)%N.

(** The class [\s] of a JavaScript regular expression, which is also what
    [String.prototype.trim] strips: TAB, LF, VT, FF, CR, SPACE and, below
    256, the no-break space U+00A0. *)
Definition isSpace (c : ascii) : bool :=
  inRange 9 13 c || (charCode c =? 32)%N || (charCode c =? 160)%N.

(** [String.prototype.toLowerCase] on one code unit below 256: A-Z and the
    Latin-1 capitals U+00C0..U+00DE (U+00D7, the multiplication sign,
    apart) move up by 32. *)
Definition lowerChar (c : ascii) : ascii :=
  if isUpper c || (inRange 192 222 c && negb (charCode c =? 215)%N)
  then ascii_of_N (charCode c + 32) else c.

Definition toLowerCase (s : list ascii) : list ascii := map lowerChar s.

(** [s.lastIndexOf(c)]: the index of the last occurrence, or -1. *)
Fixpoint lastIndexOf_from (c : ascii) (s : list ascii) (i acc : Z) : Z :=
  match s with
  | [] => acc
  | x :: t => lastIndexOf_from c t (i + 1) (if Ascii.eqb x c then i else acc)
  end.

Definition lastIndexOf (c : ascii) (s : list ascii) : Z :=
  lastIndexOf_from c s 0 (-1).

(** [s.substring(from)] and [s.substring(0, to)] for indices in range. *)
Definition substringFrom (from : Z) (s : list ascii) : list ascii :=
  drop (Z.to_nat from) s.
Definition substringTo (to : Z) (s : list ascii) : list ascii :=
  take (Z.to_nat to) s.

(** [s.trim()] *)
Fixpoint trimStart (s : list ascii) : list ascii :=
  match s with
  | c :: t => if isSpace c then trimStart t else s
  | [] => []
  end.
Definition trimEnd (s : list ascii) : list ascii := rev (trimStart (rev s)).
Definition trim (s : list ascii) : list ascii := trimEnd (trimStart s).

(** [s.replace(/[^a-zA-Z0-9\s\/]/g, ' ')] *)
Definition keptInName (c : ascii) : bool :=
  isLower c || isUpper c || isDigit c || isSpace c || isSlash c.
Definition replaceUnsafe (s : list ascii) : list ascii :=
  map (fun c => if keptInName c then c else " "%char) s.

(** [s.replace(/\s+/g, ' ')]: every maximal run of white space becomes one
    space.  A white space character followed by another one is dropped, the
    last one of a run is written as a space. *)
Fixpoint collapseSpaces (s : list ascii) : list ascii :=
  match s with
  | [] => []
  | c :: t =>
      if isSpace c then
        match t with
        | c' :: _ => if isSpace c' then collapseSpaces t
                     else " "%char :: collapseSpaces t
        | [] => [" "%char]
        end
      else c :: collapseSpaces t
  end.

(** [s.replace(/\s/g, '-')] *)
Definition spacesToDashes (s : list ascii) : list ascii :=
  map (fun c => if isSpace c then "-"%char else c) s.

(** [s.replace(/^\//, '')]: one leading slash is removed. *)
Definition removeLeadingSlash (s : list ascii) : list ascii :=
  match s with
  | c :: t => if isSlash c then t else s
  | [] => []
  end.

(** [s.replace(/[^a-z0-9.]/g, '')] *)
Definition keptInExt (c : ascii) : bool := isLower c || isDigit c || isDot c.
Definition stripExt (s : list ascii) : list ascii := filter (fun c => keptInExt c = true) s.

(** ** JavaScript values, errors and effects *)

(** An error object: [error.name] and [error.message]. *)
Record JsError := { name : string; message : string }.

Definition Error (msg : string) : JsError := {| name := "Error"; message := msg |}.
Definition TypeError (msg : string) : JsError := {| name := "TypeError"; message := msg |}.
(** Reading an identifier that no enclosing scope declares. *)
Definition ReferenceError (ident : string) : JsError :=
  {| name := "ReferenceError"; message := ident ++ " is not defined" |}.

(** [error.name === 'NotFound' || error.name === 'NoSuchKey'] *)
Definition isNotFound (error : JsError) : bool :=
  String.eqb (name error) "NotFound" || String.eqb (name error) "NoSuchKey".

(** How a call ends: [return a] (a resolved promise) or [throw e] (a
    rejected one). *)
Inductive Outcome (A : Type) : Type :=
  | Returned (a : A)
  | Thrown (e : JsError).
Arguments Returned {A} a.
Arguments Thrown {A} e.

(** A string setting or field that may be [undefined]/[null]. *)
Definition falsy (v : option string) : bool :=
  match v with
  | None => true
  | Some s => String.eqb s EmptyString
  end.

(** [`${v}`] *)
Definition show (v : option string) : string := default "null" v.

(** [Database.serverSettings], the fields the manager reads. *)
Record ServerSettings := {
  cloudStorageEnabled : bool;
  cloudStorageS3Region : option string;
  cloudStorageS3Bucket : option string;
  cloudStorageS3AccessKey : option string;
  cloudStorageS3SecretKey : option string
}.

(** [clientConfig], which is all an [S3Client] is made from. *)
Record S3Client := {
  region : option string;
  accessKeyId : option string;
  secretAccessKey : option string
}.

(** The payload handed to the cache: [Buffer.isBuffer(data)] or a stream. *)
Inductive Data :=
  | Buffer (bytes : string)
  | Stream (bytes : string).

Definition isBuffer (data : Data) : bool :=
  match data with Buffer _ => true | Stream _ => false end.

(** The commands of @aws-sdk/client-s3 the manager builds. *)
Inductive Command :=
  | HeadBucketCommand (Bucket : option string)
  | PutObjectCommand (Bucket : option string) (Key : string) (Body : Data)
      (ContentType : option string)
  | HeadObjectCommand (Bucket : option string) (Key : string)
  | GetObjectCommand (Bucket : option string) (Key : string).

Inductive LogLevel := LogDebug | LogInfo | LogError.

(** What a call does that is visible outside the manager object. *)
Inductive Event :=
  | Log (level : LogLevel) (msg : string)
  | NewS3Client (clientConfig : S3Client)         (* new S3Client(clientConfig) *)
  | Send (client : S3Client) (command : Command)  (* client.send(command) *)
  | UploadDone (client : S3Client) (params : Command) (* new Upload(..).done() *)
  | GetSignedUrl (client : S3Client) (command : Command) (expiresIn : N).

(** Requests that go to the object store over the network. *)
Definition isNetworkCall (ev : Event) : bool :=
  match ev with
  | Send _ _ | UploadDone _ _ => true
  | _ => false
  end.

Definition isProbe (ev : Event) : bool :=
  match ev with
  | Send _ (HeadBucketCommand _) => true
  | _ => false
  end.

Definition isClientConstruction (ev : Event) : bool :=
  match ev with
  | NewS3Client _ => true
  | _ => false
  end.

(** The object-store client library is an external collaborator: the
    manager is written against any behaviour of it.  [World] is whatever
    the library and the store behind it depend on. *)
Class ObjectStore (World : Type) := {
  s3_send : S3Client -> Command -> World -> Outcome unit * World;
  s3_upload : S3Client -> Command -> World -> Outcome unit * World;
  s3_getSignedUrl : S3Client -> Command -> N -> World -> Outcome string * World
}.

(** The fields of the [StorageManager] singleton. *)
Record StorageManager := {
  s3Client : option S3Client;
  bucket : option string;
  isInitialized : bool;
  isS3Enabled : bool
}.

(** [constructor()] *)
Definition constructor : StorageManager :=
  {| s3Client := None; bucket := None; isInitialized := false; isS3Enabled := false |}.

Definition set_s3Client (c : S3Client) (m : StorageManager) : StorageManager :=
  {| s3Client := Some c; bucket := bucket m;
     isInitialized := isInitialized m; isS3Enabled := isS3Enabled m |}.
Definition set_bucket (b : option string) (m : StorageManager) : StorageManager :=
  {| s3Client := s3Client m; bucket := b;
     isInitialized := isInitialized m; isS3Enabled := isS3Enabled m |}.
Definition set_isInitialized (b : bool) (m : StorageManager) : StorageManager :=
  {| s3Client := s3Client m; bucket := bucket m;
     isInitialized := b; isS3Enabled := isS3Enabled m |}.

(** The state a call runs in: the manager object, the outside world, and
    the events so far (latest last). *)
Record Machine (World : Type) := {
  this : StorageManager;
  world : World;
  trace : list Event
}.
Arguments this {World} _.
Arguments world {World} _.
Arguments trace {World} _.

Definition Js (World A : Type) : Type := Machine World -> Outcome A * Machine World.

Section Effects.
Context {World : Type} `{ObjectStore World}.

Definition ret {A} (a : A) : Js World A := fun st => (Returned a, st).

Definition bind {A B} (m : Js World A) (k : A -> Js World B) : Js World B :=
  fun st =>
    match m st with
    | (Returned a, st') => k a st'
    | (Thrown e, st') => (Thrown e, st')
    end.

Definition throw {A} (e : JsError) : Js World A := fun st => (Thrown e, st).

(** [try { body } catch (error) { handler }] *)
Definition tryCatch {A} (body : Js World A) (handler : JsError -> Js World A)
  : Js World A :=
  fun st =>
    match body st with
    | (Returned a, st') => (Returned a, st')
    | (Thrown e, st') => handler e st'
    end.

Definition emit (ev : Event) : Js World unit :=
  fun st => (Returned tt,
             {| this := this st; world := world st; trace := trace st ++ [ev] |}).

(** [Logger.info(..)], [Logger.debug(..)], [Logger.error(..)] *)
Definition log (level : LogLevel) (msg : string) : Js World unit :=
  emit (Log level msg).

Definition getThis : Js World StorageManager := fun st => (Returned (this st), st).

Definition modifyThis (f : StorageManager -> StorageManager) : Js World unit :=
  fun st => (Returned tt,
             {| this := f (this st); world := world st; trace := trace st |}).

(** A call into the client library: the world answers and moves on. *)
Definition external {A} (f : World -> Outcome A * World) : Js World A :=
  fun st =>
    let (r, w) := f (world st) in
    (r, {| this := this st; world := w; trace := trace st |}).

(** A template literal hole [${ident}] whose identifier is not declared
    in any enclosing scope: evaluating it throws. *)
Definition unbound (ident : string) : Js World string :=
  throw (ReferenceError ident).

(** [new S3Client(clientConfig)] *)
Definition newS3Client (clientConfig : S3Client) : Js World S3Client :=
  bind (emit (NewS3Client clientConfig)) (fun _ => ret clientConfig).

(** [this.s3Client.send(command)]; with [this.s3Client] still [null] the
    member access throws. *)
Definition clientSend (command : Command) : Js World unit :=
  bind getThis (fun self =>
  match s3Client self with
  | None => throw (TypeError "Cannot read properties of null (reading 'send')")
  | Some client =>
      bind (emit (Send client command)) (fun _ =>
      external (s3_send client command))
  end).

(** [new Upload({ client: this.s3Client, params }).done()] *)
Definition uploadDone (params : Command) : Js World unit :=
  bind getThis (fun self =>
  match s3Client self with
  | None => throw (TypeError "Cannot read properties of null (reading 'config')")
  | Some client =>
      bind (emit (UploadDone client params)) (fun _ =>
      external (s3_upload client params))
  end).

(** [getSignedUrl(this.s3Client, command, { expiresIn })] *)
Definition getSignedUrl (command : Command) (expiresIn : N) : Js World string :=
  bind getThis (fun self =>
  match s3Client self with
  | None => throw (TypeError "Cannot read properties of null (reading 'config')")
  | Some client =>
      bind (emit (GetSignedUrl client command expiresIn)) (fun _ =>
      external (s3_getSignedUrl client command expiresIn))
  end).

End Effects.

Notation "x <- m ;; k" := (bind m (fun x => k))
  (at level 100, m at next level, right associativity).
Notation "m ;;; k" := (bind m (fun _ => k))
  (at level 100, right associativity).

Section Lifecycle.
Context {World : Type} `{ObjectStore World}.

(** [testS3Connection()], lines 84-93 of both manager files. *)
Definition testS3Connection : Js World unit :=
  tryCatch
    (self <- getThis ;;
     clientSend (HeadBucketCommand (bucket self)) ;;;
     log LogInfo ("[StorageManager] Successfully connected to S3 bucket: "
                  ++ show (bucket self)))
    (fun error =>
       self <- getThis ;;
       log LogError ("[StorageManager] Failed to access S3 bucket "
                     ++ show (bucket self) ++ ":") ;;;
       throw (Error ("S3 bucket access failed: " ++ message error))).

(** [initS3Storage(settings)], lines 47-79. *)
Definition initS3Storage (settings : ServerSettings) : Js World unit :=
  if falsy (cloudStorageS3Region settings) || falsy (cloudStorageS3Bucket settings)
  then throw (Error "S3 storage requires region and bucket configuration")
  else
  if falsy (cloudStorageS3AccessKey settings) || falsy (cloudStorageS3SecretKey settings)
  then throw (Error "S3 storage requires access key and secret key")
  else
    log LogInfo ("[StorageManager] Configuring S3 storage - Region: "
                 ++ show (cloudStorageS3Region settings) ++ ", Bucket: "
                 ++ show (cloudStorageS3Bucket settings)) ;;;
    tryCatch
      (let clientConfig :=
         {| region := cloudStorageS3Region settings;
            accessKeyId := cloudStorageS3AccessKey settings;
            secretAccessKey := cloudStorageS3SecretKey settings |} in
       client <- newS3Client clientConfig ;;
       modifyThis (set_s3Client client) ;;;
       modifyThis (set_bucket (cloudStorageS3Bucket settings)) ;;;
       testS3Connection)
      (fun error =>
         log LogError "[StorageManager] Failed to initialize S3 client:" ;;;
         throw error).

(** [init()], lines 25-42; [settings] is [Database.serverSettings]. *)
Definition init (settings : ServerSettings) : Js World unit :=
  tryCatch
    (if negb (cloudStorageEnabled settings)
     then log LogInfo "[StorageManager] Cloud storage disabled"
     else
       initS3Storage settings ;;;
       modifyThis (set_isInitialized true) ;;;
       log LogInfo "[StorageManager] Storage initialized successfully")
    (fun error =>
       log LogError "[StorageManager] Failed to initialize storage:" ;;;
       throw error).

End Lifecycle.

(** ** The archive manager, src/unnamed/part_000 *)
Module Archive.
Section Methods.
Context {World : Type} `{ObjectStore World}.

(** [getKey = (itemId) => `audiobooks/${itemId}.zip`], line 95. *)
Definition getKey (itemId : string) : string := "audiobooks/" ++ itemId ++ ".zip".

(** [cacheZipFile(itemId, data)], lines 103-143.  The handler's log line
    reads [bookId], which nothing declares. *)
Definition cacheZipFile (itemId : string) (data : Data) : Js World string :=
  self <- getThis ;;
  if negb (isInitialized self)
  then throw (Error "S3 storage not initialized")
  else
    let key := getKey itemId in
    tryCatch
      ((if isBuffer data
        then
          self <- getThis ;;
          clientSend (PutObjectCommand (bucket self) key data (Some "application/zip"))
        else
          self <- getThis ;;
          uploadDone (PutObjectCommand (bucket self) key data (Some "application/zip"))) ;;;
       log LogInfo ("[StorageManager] Cached audiobook to S3: " ++ key) ;;;
       ret key)
      (fun error =>
         bookId <- unbound "bookId" ;;
         log LogError ("[StorageManager] Failed to cache audiobook "
                       ++ bookId ++ " to S3:") ;;;
         throw error).

(** [getSignedUrlForZipFile(itemId, expiresIn = 3600)], lines 151-188;
    [null] is [None]. *)
Definition getSignedUrlForZipFile (itemId : string) (expiresIn : option N)
  : Js World (option string) :=
  let expiresIn := default 3600%N expiresIn in
  self <- getThis ;;
  if negb (isInitialized self)
  then throw (Error "S3 storage not initialized")
  else
    let key := getKey itemId in
    tryCatch
      (self <- getThis ;;
       clientSend (HeadObjectCommand (bucket self) key) ;;;
       self <- getThis ;;
       signedUrl <- getSignedUrl (GetObjectCommand (bucket self) key) expiresIn ;;
       log LogInfo ("[StorageManager] Generated signed URL for audiobook: "
                    ++ key ++ " (expires in " ++ pretty expiresIn ++ "s)") ;;;
       ret (Some signedUrl))
      (fun error =>
         if isNotFound error
         then
           log LogDebug ("[StorageManager] Audiobook not found in S3: " ++ key) ;;;
           ret None
         else
           log LogError ("[StorageManager] Failed to generate signed URL for audiobook "
                         ++ itemId ++ ":") ;;;
           throw error).

(** [zipFileExists(itemId, filename = 'audio.mp3')], lines 196-220.
    [getKey] takes no second parameter, so [filename] is dropped.  The
    log line of the handler reads [bookId]; the parameter is [itemId]. *)
Definition zipFileExists (itemId : string) (filename : option string)
  : Js World bool :=
  let filename := default "audio.mp3" filename in
  self <- getThis ;;
  if negb (isInitialized self) || negb (isS3Enabled self)
  then ret false
  else
    let key := getKey itemId in
    tryCatch
      (self <- getThis ;;
       clientSend (HeadObjectCommand (bucket self) key) ;;;
       ret true)
      (fun error =>
         if isNotFound error
         then ret false
         else
           bookId <- unbound "bookId" ;;
           log LogError ("[StorageManager] Failed to check audiobook existence "
                         ++ bookId ++ " in S3:") ;;;
           ret false).

(** A call of a method of the exported singleton. *)
Inductive Call :=
  | CallInit (settings : ServerSettings)
  | CallCacheZipFile (itemId : string) (data : Data)
  | CallGetSignedUrlForZipFile (itemId : string) (expiresIn : option N)
  | CallZipFileExists (itemId : string) (filename : option string).

Definition perform (c : Call) : Js World unit :=
  match c with
  | CallInit settings => init settings
  | CallCacheZipFile itemId data => cacheZipFile itemId data ;;; ret tt
  | CallGetSignedUrlForZipFile itemId expiresIn =>
      getSignedUrlForZipFile itemId expiresIn ;;; ret tt
  | CallZipFileExists itemId filename => zipFileExists itemId filename ;;; ret tt
  end.

(** The manager objects the module can get to: [new StorageManager()]
    followed by method calls, whatever the world does in between. *)
Inductive reachable : StorageManager -> Prop :=
  | reachable_new : reachable constructor
  | reachable_call (c : Call) (st : Machine World) :
      reachable (this st) -> reachable (this (snd (perform c st))).

End Methods.
End Archive.

(** ** The file manager, src/server/managers/StorageManager.js *)
Module Files.

(** [s3SafeFileName(fileName)], src/server/managers/StorageManager.js
    lines 100-123.  [ext] is truthy exactly when it is not empty. *)
Definition extOf (fileName : list ascii) : list ascii :=
  if (0 <? lastIndexOf "."%char fileName)%Z
  then substringFrom (lastIndexOf "."%char fileName) fileName
  else [].

Definition nameWithoutExtOf (fileName : list ascii) : list ascii :=
  match extOf fileName with
  | [] => fileName
  | _ :: _ => substringTo (lastIndexOf "."%char fileName) fileName
  end.

Definition safeNameOf (nameWithoutExt : list ascii) : list ascii :=
  spacesToDashes (toLowerCase (collapseSpaces (trim (replaceUnsafe nameWithoutExt)))).

Definition safeExtOf (ext : list ascii) : list ascii :=
  stripExt (toLowerCase ext).

Definition s3SafeFileName (fileName : string) : string :=
  let ext := extOf (chars fileName) in
  let nameWithoutExt := nameWithoutExtOf (chars fileName) in
  let safeName := safeNameOf nameWithoutExt in
  let safeExt := safeExtOf ext in
  str (removeLeadingSlash safeName ++ safeExt).

Section Methods.
Context {World : Type} `{ObjectStore World}.

(** [cacheFile(fileName, data)], lines 131-169.  The handler's log line
    reads [bookId], which nothing declares. *)
Definition cacheFile (fileName : string) (data : Data) : Js World string :=
  self <- getThis ;;
  if negb (isInitialized self)
  then throw (Error "S3 storage not initialized")
  else
    let key := s3SafeFileName fileName in
    tryCatch
      ((if isBuffer data
        then
          self <- getThis ;;
          clientSend (PutObjectCommand (bucket self) key data None)
        else
          self <- getThis ;;
          uploadDone (PutObjectCommand (bucket self) key data None)) ;;;
       log LogInfo ("[StorageManager] Cached audiobook to S3: " ++ key) ;;;
       ret key)
      (fun error =>
         bookId <- unbound "bookId" ;;
         log LogError ("[StorageManager] Failed to cache audiobook "
                       ++ bookId ++ " to S3:") ;;;
         throw error).

(** [getSignedUrlForFile(fileName, expiresIn = 3600)], lines 177-215.
    The last log line reads [itemId]; the parameter is [fileName] and
    nothing else declares [itemId], so the [return null] after it is
    never reached. *)
Definition getSignedUrlForFile (fileName : string) (expiresIn : option N)
  : Js World (option string) :=
  let expiresIn := default 3600%N expiresIn in
  self <- getThis ;;
  if negb (isInitialized self)
  then
    log LogInfo "[StorageManager] S3 storage not initialized." ;;;
    ret None
  else
    let key := s3SafeFileName fileName in
    tryCatch
      (self <- getThis ;;
       clientSend (HeadObjectCommand (bucket self) key) ;;;
       self <- getThis ;;
       signedUrl <- getSignedUrl (GetObjectCommand (bucket self) key) expiresIn ;;
       log LogInfo ("[StorageManager] Generated signed URL for audiobook: "
                    ++ key ++ " (expires in " ++ pretty expiresIn ++ "s)") ;;;
       ret (Some signedUrl))
      (fun error =>
         if isNotFound error
         then
           log LogDebug ("[StorageManager] Audiobook not found in S3: " ++ key) ;;;
           ret None
         else
           itemId <- unbound "itemId" ;;
           log LogError ("[StorageManager] Failed to generate signed URL for audiobook "
                         ++ itemId ++ ":") ;;;
           ret None).

(** [zipFileExists(itemId, filename = 'audio.mp3')], lines 223-247.
    [s3SafeFileName] takes one parameter, so [filename] is dropped. *)
Definition zipFileExists (itemId : string) (filename : option string)
  : Js World bool :=
  let filename := default "audio.mp3" filename in
  self <- getThis ;;
  if negb (isInitialized self) || negb (isS3Enabled self)
  then ret false
  else
    let key := s3SafeFileName itemId in
    tryCatch
      (self <- getThis ;;
       clientSend (HeadObjectCommand (bucket self) key) ;;;
       ret true)
      (fun error =>
         if isNotFound error
         then ret false
         else
           bookId <- unbound "bookId" ;;
           log LogError ("[StorageManager] Failed to check audiobook existence "
                         ++ bookId ++ " in S3:") ;;;
           ret false).

Inductive Call :=
  | CallInit (settings : ServerSettings)
  | CallCacheFile (fileName : string) (data : Data)
  | CallGetSignedUrlForFile (fileName : string) (expiresIn : option N)
  | CallZipFileExists (itemId : string) (filename : option string).

Definition perform (c : Call) : Js World unit :=
  match c with
  | CallInit settings => init settings
  | CallCacheFile fileName data => cacheFile fileName data ;;; ret tt
  | CallGetSignedUrlForFile fileName expiresIn =>
      getSignedUrlForFile fileName expiresIn ;;; ret tt
  | CallZipFileExists itemId filename => zipFileExists itemId filename ;;; ret tt
  end.

Inductive reachable : StorageManager -> Prop :=
  | reachable_new : reachable constructor
  | reachable_call (c : Call) (st : Machine World) :
      reachable (this st) -> reachable (this (snd (perform c st))).

End Methods.
End Files.

(** ** An object store in memory

    One bucket holding objects by key, with an optional outage (while it
    lasts every request is answered by that error) and an optional failure
    of the URL signer.  It stands in for the client library wherever the
    manager is run on a concrete input. *)
Record MemStore := {
  storeBucket : string;
  objects : gmap string Data;
  outage : option JsError;
  signerFailure : option JsError
}.

Definition NotFound : JsError := {| name := "NotFound"; message := "UnknownError" |}.

Definition putObject (key : string) (body : Data) (w : MemStore) : MemStore :=
  {| storeBucket := storeBucket w; objects := <[key := body]> (objects w);
     outage := outage w; signerFailure := signerFailure w |}.

Definition memSend (command : Command) (w : MemStore) : Outcome unit * MemStore :=
  match outage w with
  | Some e => (Thrown e, w)
  | None =>
      match command with
      | HeadBucketCommand b =>
          if decide (b = Some (storeBucket w)) then (Returned tt, w)
          else (Thrown NotFound, w)
      | PutObjectCommand b key body _ =>
          if decide (b = Some (storeBucket w)) then (Returned tt, putObject key body w)
          else (Thrown {| name := "NoSuchBucket"; message := "The specified bucket does not exist" |}, w)
      | HeadObjectCommand b key | GetObjectCommand b key =>
          if decide (b = Some (storeBucket w)) then
            match objects w !! key with
            | Some _ => (Returned tt, w)
            | None => (Thrown NotFound, w)
            end
          else (Thrown NotFound, w)
      end
  end.

Definition memSignedUrl (client : S3Client) (command : Command) (expiresIn : N)
    (w : MemStore) : Outcome string * MemStore :=
  match signerFailure w with
  | Some e => (Thrown e, w)
  | None =>
      match command with
      | GetObjectCommand b key =>
          (Returned ("https://" ++ show b ++ ".s3." ++ show (region client)
                     ++ ".amazonaws.com/" ++ key ++ "?X-Amz-Expires=" ++ pretty expiresIn), w)
      | _ => (Thrown (Error "not a GetObjectCommand"), w)
      end
  end.

#[export] Instance MemStore_ObjectStore : ObjectStore MemStore := {
  s3_send _ command := memSend command;
  s3_upload _ params := memSend params;
  s3_getSignedUrl := memSignedUrl
}.

(** A complete configuration, the store it points at, and the machine the
    module starts in: [module.exports = new StorageManager()]. *)
Definition validSettings : ServerSettings :=
  {| cloudStorageEnabled := true;
     cloudStorageS3Region := Some "eu-west-1";
     cloudStorageS3Bucket := Some "abs-cache";
     cloudStorageS3AccessKey := Some "AKIDEXAMPLE";
     cloudStorageS3SecretKey := Some "secret" |}.

Definition emptyStore : MemStore :=
  {| storeBucket := "abs-cache"; objects := ∅; outage := None; signerFailure := None |}.

Definition start {World : Type} (w : World) : Machine World :=
  {| this := constructor; world := w; trace := [] |}.

Definition accessDenied : JsError := {| name := "AccessDenied"; message := "Access Denied" |}.

(** ** The permission backfill, src/server/migrations/v2.31.0-add-default-permission.js *)
Module Migration.

(** What [JSON.parse] yields.  A number is a double, kept by its 64 bits;
    an object is its own enumerable properties by key. *)
#[warnings="-register-all"]
Inductive Json :=
  | JNull
  | JBool (b : bool)
  | JNumber (bits : Z)
  | JString (s : string)
  | JArray (items : list Json)
  | JObject (fields : gmap string Json).

(** The [permissions] column holds JSON text.  The model keeps what the
    migration can tell apart: a value that is falsy in [user.permissions ?
    .. : ..] (NULL or the empty text), a text [JSON.parse] rejects, and a
    text that parses to a value, kept by that value. *)
Inductive Cell :=
  | CellFalsy
  | CellInvalid (text : string)
  | CellJson (v : Json).

(** The exponent field of a double; all ones for [Infinity], [-Infinity]
    and [NaN]. *)
Definition exponentOf (bits : Z) : Z := Z.land (Z.shiftr bits 52) 2047.

(** The bits of [-0] and of [Infinity] (parsed from a literal such as
    [1e400]). *)
Definition negativeZero : Z := 9223372036854775808.
Definition positiveInfinity : Z := 9218868437227405312.

(** What [JSON.stringify] makes of a number, as read back: a number that
    is not finite is written as [null], [-0] as [0], any other number by
    digits that read back as the same double. *)
Definition stringifiedNumber (bits : Z) : Json :=
  if (exponentOf bits =? 2047)%Z then JNull
  else if (bits =? negativeZero)%Z then JNumber 0
  else JNumber bits.

(** The value of the text [JSON.stringify(v)], for [v] out of
    [JSON.parse]: numbers as above, inside arrays and objects too; the
    rest is written as it is. *)
Fixpoint stringified (v : Json) : Json :=
  match v with
  | JNumber bits => stringifiedNumber bits
  | JArray items => JArray (stringified <$> items)
  | JObject fields => JObject (stringified <$> fields)
  | other => other
  end.

(** [JSON.stringify(v)], as a cell: the text is never empty and parses. *)
Definition JSON_stringify (v : Json) : Cell := CellJson (stringified v).

(** A row of [users]: the columns the migration selects, and all the other
    columns by name. *)
Record User := {
  username : string;
  type : string;
  permissions : Cell;
  otherColumns : gmap string string
}.

(** The table, by its primary key [id]; [None] when the database has no
    [users] table. *)
Record Database := { users : option (gmap string User) }.

Definition SyntaxError : JsError :=
  {| name := "SyntaxError"; message := "Unexpected token in JSON" |}.

(** [user.permissions ? JSON.parse(user.permissions) : {}] *)
Definition parsePermissions (c : Cell) : Outcome Json :=
  match c with
  | CellFalsy => Returned (JObject ∅)
  | CellInvalid _ => Thrown SyntaxError
  | CellJson v => Returned v
  end.

(** [permissions.saveToCloud]; [undefined] is [None].  Reading a property
    of [null] throws; a primitive or an array has no such property. *)
Definition getSaveToCloud (permissions : Json) : Outcome (option Json) :=
  match permissions with
  | JNull => Thrown (TypeError "Cannot read properties of null (reading 'saveToCloud')")
  | JObject fields => Returned (fields !! "saveToCloud")
  | _ => Returned None
  end.

(** [permissions.saveToCloud = true], as [JSON.stringify(permissions)]
    then sees it: the module is not in strict mode, so the assignment to a
    primitive is dropped, and a named property of an array is not
    serialised. *)
Definition setSaveToCloud (permissions : Json) : Json :=
  match permissions with
  | JObject fields => JObject (<["saveToCloud" := JBool true]> fields)
  | other => other
  end.

Definition isRootOrAdmin (u : User) : bool :=
  String.eqb (type u) "root" || String.eqb (type u) "admin".

(** [SELECT id, username, type, permissions FROM users WHERE type IN
    ('root', 'admin')] *)
Definition selectRootAndAdmin (t : gmap string User) : list (string * User) :=
  filter (fun row => isRootOrAdmin (snd row) = true) (map_to_list t).

Definition withPermissions (p : Cell) (u : User) : User :=
  {| username := username u; type := type u; permissions := p;
     otherColumns := otherColumns u |}.

(** [UPDATE users SET permissions = :permissions WHERE id = :id], with the
    text bound to [:permissions]. *)
Definition updatePermissions (id : string) (text : Cell) (t : gmap string User)
  : gmap string User :=
  alter (withPermissions text) id t.

(** The object the loop body hands to [JSON.stringify] for a selected row,
    if it gets that far: [None] when [saveToCloud] is already defined and
    when the body throws into its [catch], which only logs. *)
Definition newPermissions (user : User) : option Json :=
  match parsePermissions (permissions user) with
  | Thrown _ => None
  | Returned p =>
      match getSaveToCloud p with
      | Thrown _ => None
      | Returned (Some _) => None
      | Returned None => Some (setSaveToCloud p)
      end
  end.

Section Up.
(** The UPDATE statements the database rejects, by row id: the rejection
    lands in the loop's [catch].  (A rejected [tableExists] or SELECT
    rejects [up] before anything is written.) *)
Variable rejected : string -> bool.

(** The body of [for (const user of users)], lines 35-62; the logger calls
    write to the log only and are left out. *)
Definition updateUser (t : gmap string User) (row : string * User) : gmap string User :=
  match newPermissions (snd row) with
  | Some p =>
      if rejected (fst row) then t
      else updatePermissions (fst row) (JSON_stringify p) t
  | None => t
  end.

Definition upUsers (t : gmap string User) : gmap string User :=
  foldl updateUser t (selectRootAndAdmin t).

(** [up({ context: { queryInterface, logger } })], lines 20-70. *)
Definition up (db : Database) : Database :=
  match users db with
  | Some t => {| users := Some (upUsers t) |}
  | None => db
  end.

End Up.

(** The properties of a permissions cell read as an object: none for NULL
    or the empty text. *)
Definition objectOf (c : Cell) : option (gmap string Json) :=
  match c with
  | CellFalsy => Some ∅
  | CellJson (JObject fields) => Some fields
  | _ => None
  end.

Definition executed : string -> bool := fun _ => false.

(** [delete permissions.saveToCloud], as [JSON.stringify(permissions)]
    then sees it. *)
Definition deleteSaveToCloud (permissions : Json) : Json :=
  match permissions with
  | JObject fields => JObject (delete "saveToCloud" fields)
  | other => other
  end.

(** The object the loop body of [down] hands to [JSON.stringify] for a
    selected row, if it gets that far: [None] when [saveToCloud] is
    undefined and when the body throws into its [catch]. *)
Definition oldPermissions (user : User) : option Json :=
  match parsePermissions (permissions user) with
  | Thrown _ => None
  | Returned p =>
      match getSaveToCloud p with
      | Thrown _ => None
      | Returned (Some _) => Some (deleteSaveToCloud p)
      | Returned None => None
      end
  end.

Section Down.
Variable rejected : string -> bool.

(** The body of [for (const user of users)] in [down], lines 93-120. *)
Definition downgradeUser (t : gmap string User) (row : string * User) : gmap string User :=
  match oldPermissions (snd row) with
  | Some p =>
      if rejected (fst row) then t
      else updatePermissions (fst row) (JSON_stringify p) t
  | None => t
  end.

Definition downUsers (t : gmap string User) : gmap string User :=
  foldl downgradeUser t (selectRootAndAdmin t).

(** [down({ context: { queryInterface, logger } })], lines 78-128. *)
Definition down (db : Database) : Database :=
  match users db with
  | Some t => {| users := Some (downUsers t) |}
  | None => db
  end.

End Down.

End Migration.

(** ** The file row of the library item page,
    src/client/components/tables/LibraryFilesTableRow.vue *)
Module LibraryFilesTableRow.

Record Props := { libraryItemId : string; fileIno : string }.

Record Request := { url : string; timeout : N }.

(** What the awaited [$get] settles to. *)
Record Response := { success : bool; fileName : string }.
(** A rejection: [error.response?.data?.message] and [error.message]; the
    rejection value itself may be [undefined]. *)
Record AxiosError := { responseMessage : option string; errorMessage : option string }.

Inductive Settled :=
  | Fulfilled (response : Response)
  | Rejected (error : option AxiosError).

Inductive Toast :=
  | ToastSuccess (text : string)
  | ToastError (text : string).

(** The component: its [data()], the requests issued and not yet settled,
    and the toasts shown. *)
Record Component := {
  savingsToCloud : bool;
  inFlight : list Request;
  toasts : list Toast
}.

(** [data() { return { savingsToCloud: false } }] *)
Definition mounted : Component :=
  {| savingsToCloud := false; inFlight := []; toasts := [] |}.

Definition saveToCloudRequest (props : Props) : Request :=
  {| url := "/api/items/" ++ libraryItemId props ++ "/file/" ++ fileIno props
            ++ "/saveToCloud";
     timeout := 300000 |}.

(** [saveToCloud()] up to its [await], lines 112-120: the request issued,
    if any, and the component as the call leaves it. *)
Definition saveToCloud (props : Props) (c : Component) : option Request * Component :=
  if savingsToCloud c then (None, c)
  else
    let request := saveToCloudRequest props in
    (Some request,
     {| savingsToCloud := true; inFlight := inFlight c ++ [request];
        toasts := toasts c |}).

(** The double quote character, as a string. *)
Definition quote : string := String (ascii_of_N 34) EmptyString.

(** [a || b] on strings that may be [undefined]. *)
Definition orElse (a b : option string) : option string :=
  if falsy a then b else a.

(** The [catch] block, lines 127-130. *)
Definition catchBlock (error : option AxiosError) : Outcome Toast :=
  match error with
  | None => Thrown (TypeError "Cannot read properties of undefined (reading 'response')")
  | Some e =>
      Returned (ToastError
        (default "Failed to save to cloud"
           (orElse (orElse (responseMessage e) (errorMessage e))
                   (Some "Failed to save to cloud"))))
  end.

(** The rest of [saveToCloud()] once its request, the [i]-th in flight,
    has settled, lines 122-133: the toast of the [try] or [catch] block,
    then [finally]. *)
Definition saveToCloudSettled (i : nat) (settled : Settled) (c : Component)
  : Outcome unit * Component :=
  let shown :=
    match settled with
    | Fulfilled response =>
        if success response
        then Returned (ToastSuccess ("Successfully saved " ++ quote ++ fileName response
                                     ++ quote ++ " to cloud storage"))
        else Returned (ToastError "Failed to save to cloud")
    | Rejected error => catchBlock error
    end in
  let remaining := delete i (inFlight c) in
  match shown with
  | Returned toast =>
      (Returned tt,
       {| savingsToCloud := false; inFlight := remaining; toasts := toasts c ++ [toast] |})
  | Thrown e =>
      (Thrown e,
       {| savingsToCloud := false; inFlight := remaining; toasts := toasts c |})
  end.

(** What can happen to a mounted row: a click on the button, or a request
    in flight settling. *)
Inductive step (props : Props) : Component -> Component -> Prop :=
  | step_click c : step props c (snd (saveToCloud props c))
  | step_settle c i settled :
      i < length (inFlight c) ->
      step props c (snd (saveToCloudSettled i settled c)).

Inductive reachable (props : Props) : Component -> Prop :=
  | reachable_mounted : reachable props mounted
  | reachable_step c c' : reachable props c -> step props c c' -> reachable props c'.

(** What the row reads from the store getters and from its other props. *)
Record Viewer := {
  userToken : string;
  userCanDownload : bool;
  userCanDelete : bool;
  userIsAdmin : bool
}.

Record FileView := {
  filename : string;          (* file.metadata.filename *)
  audioFile : option string;  (* file.audioFile, when the file is an audio file *)
  inModal : bool
}.

(** The labels of [this.$strings] the menu uses. *)
Inductive Label := LabelDownload | ButtonDelete | LabelMoreInfo.

Record MenuItem := { text : Label; action : string }.

(** [contextMenuItems()], lines 55-77. *)
Definition contextMenuItems (viewer : Viewer) (file : FileView) : list MenuItem :=
  (if userCanDownload viewer
   then [{| text := LabelDownload; action := "download" |}] else [])
  ++ (if userCanDelete viewer
      then [{| text := ButtonDelete; action := "delete" |}] else [])
  ++ (if userIsAdmin viewer && bool_decide (is_Some (audioFile file)) && negb (inModal file)
      then [{| text := LabelMoreInfo; action := "more" |}] else []).

(** [downloadUrl()], lines 52-54; [serverUrl] is [process.env.serverUrl]. *)
Definition downloadUrl (serverUrl : string) (props : Props) (viewer : Viewer) : string :=
  serverUrl ++ "/api/items/" ++ libraryItemId props ++ "/file/" ++ fileIno props
  ++ "/download?token=" ++ userToken viewer.

(** The payload of [deleteLibraryFile()], lines 90-106: [callback] gives
    the DELETE request it issues, if any. *)
Record ConfirmPrompt := {
  promptType : string;
  callback : bool -> option string
}.

Definition deleteUrl (props : Props) : string :=
  "/api/items/" ++ libraryItemId props ++ "/file/" ++ fileIno props.

(** What a method of the row does to the page. *)
Inductive Effect :=
  | Commit (mutation : string) (payload : ConfirmPrompt)
  | DownloadFile (fileUrl name : string)
  | Emit (event : string) (argument : option string).

(** [deleteLibraryFile()], lines 89-108. *)
Definition deleteLibraryFile (props : Props) : list Effect :=
  let payload :=
    {| promptType := "yesNo";
       callback := fun confirmed => if confirmed then Some (deleteUrl props) else None |} in
  [Commit "globals/setConfirmPrompt" payload].

(** [downloadLibraryFile()], lines 109-111. *)
Definition downloadLibraryFile (serverUrl : string) (props : Props) (viewer : Viewer)
    (file : FileView) : list Effect :=
  [DownloadFile (downloadUrl serverUrl props viewer) (filename file)].

(** [contextMenuAction({ action })], lines 80-88. *)
Definition contextMenuAction (serverUrl : string) (props : Props) (viewer : Viewer)
    (file : FileView) (action : string) : list Effect :=
  if String.eqb action "delete" then deleteLibraryFile props
  else if String.eqb action "download" then downloadLibraryFile serverUrl props viewer file
  else if String.eqb action "more" then [Emit "showMore" (audioFile file)]
  else [].

End LibraryFilesTableRow.

(** ** Vocabulary of the statements, and concrete inputs *)

Local Open Scope list_scope.

Definition isBodyChar (c : ascii) : bool :=
  isLower c || isDigit c || isDash c || isSlash c.
Definition isExtChar (c : ascii) : bool := isLower c || isDigit c.
Definition isCollapsed (c : ascii) : bool :=
  isLower c || isUpper c || isDigit c || isSlash c || (charCode c =? 32)%N.

Definition count (p : Event -> bool) (events : list Event) : nat :=
  length (List.filter p events).

(** A field of the configuration is empty or missing. *)
Definition incomplete (settings : ServerSettings) : bool :=
  falsy (cloudStorageS3Region settings) || falsy (cloudStorageS3Bucket settings)
  || falsy (cloudStorageS3AccessKey settings) || falsy (cloudStorageS3SecretKey settings).

(** The two errors [initS3Storage] raises about the configuration. *)
Definition isConfigurationError (e : JsError) : Prop :=
  e = Error "S3 storage requires region and bucket configuration" \/
  e = Error "S3 storage requires access key and secret key".

Definition noBucket : ServerSettings :=
  {| cloudStorageEnabled := true;
     cloudStorageS3Region := Some "eu-west-1";
     cloudStorageS3Bucket := None;
     cloudStorageS3AccessKey := Some "AKIDEXAMPLE";
     cloudStorageS3SecretKey := Some "secret" |}.

(** The client [initS3Storage] builds from a configuration. *)
Definition clientOf (settings : ServerSettings) : S3Client :=
  {| region := cloudStorageS3Region settings;
     accessKeyId := cloudStorageS3AccessKey settings;
     secretAccessKey := cloudStorageS3SecretKey settings |}.

(** The manager [init] leaves behind on the store of [validSettings], and
    machines around it. *)
Definition readyManager : StorageManager :=
  this (snd (init validSettings (start emptyStore))).

Definition readyOn (w : MemStore) : Machine MemStore :=
  {| this := readyManager; world := w; trace := [] |}.

Definition deniedStore : MemStore :=
  {| storeBucket := "abs-cache"; objects := ∅; outage := Some accessDenied;
     signerFailure := None |}.

Definition unsignedStore : MemStore :=
  {| storeBucket := "abs-cache";
     objects := {[ "audiobooks/book1.zip" := Buffer "PK" ]};
     outage := None; signerFailure := Some accessDenied |}.



(** A value in which [JSON.stringify] finds nothing to rewrite: no number
    in it, at any depth, is [Infinity], [-Infinity], [NaN] or [-0]. *)
Inductive ordinary : Migration.Json -> Prop :=
  | ordinary_null : ordinary Migration.JNull
  | ordinary_bool (b : bool) : ordinary (Migration.JBool b)
  | ordinary_number (bits : Z) :
      Migration.exponentOf bits <> 2047%Z -> bits <> Migration.negativeZero ->
      ordinary (Migration.JNumber bits)
  | ordinary_string (s : string) : ordinary (Migration.JString s)
  | ordinary_array (items : list Migration.Json) :
      (forall (i : nat) (x : Migration.Json), items !! i = Some x -> ordinary x) ->
      ordinary (Migration.JArray items)
  | ordinary_object (fields : gmap string Migration.Json) :
      (forall (key : string) (x : Migration.Json), fields !! key = Some x -> ordinary x) ->
      ordinary (Migration.JObject fields).

(** Every value held by a non-empty trie satisfies [P]. *)
Fixpoint all_ne {A : Type} {Q : positive -> Prop} (P : A -> Prop) (t : gmap_dep_ne A Q)
  : Prop :=
  match t with
  | GNode001 r => all_ne P r
  | GNode010 _ x => P x
  | GNode011 _ x r => P x /\ all_ne P r
  | GNode100 l => all_ne P l
  | GNode101 l r => all_ne P l /\ all_ne P r
  | GNode110 l _ x => all_ne P l /\ P x
  | GNode111 l _ x r => all_ne P l /\ P x /\ all_ne P r
  end.

(** What [up] makes of one row. *)
Definition upgraded (rejected : string -> bool) (id : string) (u : Migration.User)
  : Migration.User :=
  if Migration.isRootOrAdmin u then
    match Migration.newPermissions u with
    | Some p =>
        if rejected id then u
        else Migration.withPermissions (Migration.JSON_stringify p) u
    | None => u
    end
  else u.

(** A table with a root user holding another permission, an admin without
    permissions, an admin who already has the key, an admin whose
    permissions do not parse, and a plain user. *)
Definition sampleUser (utype : string) (p : Migration.Cell) : Migration.User :=
  {| Migration.username := "u"; Migration.type := utype; Migration.permissions := p;
     Migration.otherColumns := {[ "email" := "u@example.org" ]} |}.

Definition sampleUsers : gmap string Migration.User :=
  {[ "1" := sampleUser "root"
              (Migration.CellJson (Migration.JObject {[ "download" := Migration.JBool true ]}));
     "2" := sampleUser "admin" Migration.CellFalsy;
     "3" := sampleUser "admin"
              (Migration.CellJson (Migration.JObject {[ "saveToCloud" := Migration.JBool false ]}));
     "4" := sampleUser "admin" (Migration.CellInvalid "{");
     "5" := sampleUser "user" (Migration.CellJson (Migration.JObject ∅)) ]}.

(** A table with an admin whose permissions hold a limit written as
    [1e400] and an offset written as [-0], and a root user whose
    permissions are the text [1e400]. *)
Definition extremeUsers : gmap string Migration.User :=
  {[ "1" := sampleUser "admin"
              (Migration.CellJson
                 (Migration.JObject
                    {[ "limit" := Migration.JNumber Migration.positiveInfinity;
                       "offset" := Migration.JNumber Migration.negativeZero;
                       "download" := Migration.JBool true ]}));
     "2" := sampleUser "root"
              (Migration.CellJson (Migration.JNumber Migration.positiveInfinity)) ]}.

Definition sampleRow : LibraryFilesTableRow.Props :=
  {| LibraryFilesTableRow.libraryItemId := "li_1"; LibraryFilesTableRow.fileIno := "42" |}.

(** The row after one click on the button. *)
Definition saving : LibraryFilesTableRow.Component :=
  snd (LibraryFilesTableRow.saveToCloud sampleRow LibraryFilesTableRow.mounted).

(** A configuration with cloud storage switched off, and a complete one
    that points at a bucket the store does not have. *)
Definition disabledSettings : ServerSettings :=
  {| cloudStorageEnabled := false;
     cloudStorageS3Region := None;
     cloudStorageS3Bucket := None;
     cloudStorageS3AccessKey := None;
     cloudStorageS3SecretKey := None |}.

Definition otherSettings : ServerSettings :=
  {| cloudStorageEnabled := true;
     cloudStorageS3Region := Some "us-east-1";
     cloudStorageS3Bucket := Some "elsewhere";
     cloudStorageS3AccessKey := Some "AKIDOTHER";
     cloudStorageS3SecretKey := Some "secret2" |}.

(** An initialized manager has a client and a bucket name to send to. *)
Definition equipped (m : StorageManager) : Prop :=
  isInitialized m = true -> is_Some (s3Client m) /\ falsy (bucket m) = false.

(** The request a cache call makes for a payload: one [send] for a buffer,
    one multipart upload for a stream. *)
Definition storeEvent (client : S3Client) (command : Command) (data : Data) : Event :=
  if isBuffer data then Send client command else UploadDone client command.

Definition storeAnswer {World : Type} `{ObjectStore World}
    (client : S3Client) (command : Command) (data : Data) (w : World)
  : Outcome unit * World :=
  if isBuffer data then s3_send client command w else s3_upload client command w.

(** A store that holds the archive of item "book1" and the file
    "book1.zip". *)
Definition stockedStore : MemStore :=
  {| storeBucket := "abs-cache";
     objects := {[ "audiobooks/book1.zip" := Buffer "PK"; "book1.zip" := Buffer "PK" ]};
     outage := None; signerFailure := None |}.

(** Two neighbouring characters of [l] both satisfy [p]. *)
Fixpoint adjacent (p : ascii -> bool) (l : list ascii) : bool :=
  match l with
  | c :: t =>
      match t with
      | c' :: _ => (p c && p c') || adjacent p t
      | [] => false
      end
  | [] => false
  end.

(** The characters a key keeps as they are. *)
Definition isPlain (c : ascii) : bool := isLower c || isDigit c || isSlash c.
Definition isAlnum (c : ascii) : bool := isLower c || isUpper c || isDigit c.

(** What [down] makes of one row. *)
Definition downgraded (rejected : string -> bool) (id : string) (u : Migration.User)
  : Migration.User :=
  if Migration.isRootOrAdmin u then
    match Migration.oldPermissions u with
    | Some p =>
        if rejected id then u
        else Migration.withPermissions (Migration.JSON_stringify p) u
    | None => u
    end
  else u.

(** What [up] followed by [down] leaves in a cell of a root or admin row,
    both runs with every UPDATE executed. *)
Definition restored (c : Migration.Cell) : Migration.Cell :=
  match c with
  | Migration.CellFalsy => Migration.CellJson (Migration.JObject ∅)
  | Migration.CellInvalid text => Migration.CellInvalid text
  | Migration.CellJson (Migration.JObject fields) =>
      Migration.CellJson
        (Migration.JObject (Migration.stringified <$> delete "saveToCloud" fields))
  | Migration.CellJson v => Migration.CellJson (Migration.stringified v)
  end.

(** The row once the request of that click was fulfilled. *)
Definition saved : LibraryFilesTableRow.Component :=
  snd (LibraryFilesTableRow.saveToCloudSettled 0
         (LibraryFilesTableRow.Fulfilled
            {| LibraryFilesTableRow.success := true;
               LibraryFilesTableRow.fileName := "book1.zip" |}) saving).

(** * Properties *)

Ltac each_char c :=
  destruct c as [[] [] [] [] [] [] [] []]; vm_compute; try reflexivity; try discriminate; auto.

Ltac js_unfold :=
  unfold newS3Client, clientSend, uploadDone, getSignedUrl, unbound, log in *;
  unfold bind, ret, throw, tryCatch, emit, getThis, modifyThis, external in *.

Ltac js := js_unfold; simpl in *.

Ltac js_cases :=
  repeat (simpl in *; simplify_eq; try reflexivity; try congruence; case_match).

Ltac mig_eval :=
  cbv beta iota delta
    [Migration.newPermissions Migration.parsePermissions Migration.getSaveToCloud
     Migration.setSaveToCloud Migration.withPermissions Migration.permissions
     Migration.objectOf] in *.

Ltac mig_eval_down :=
  cbv beta iota delta
    [Migration.oldPermissions Migration.newPermissions Migration.parsePermissions
     Migration.getSaveToCloud Migration.setSaveToCloud Migration.deleteSaveToCloud
     Migration.withPermissions Migration.permissions Migration.objectOf
     Migration.isRootOrAdmin Migration.type] in *.

Ltac no_member :=
  let Hin := fresh "Hin" in
  intros Hin;
  repeat (apply elem_of_cons in Hin as [Hin|Hin]; [discriminate Hin|]);
  apply elem_of_nil in Hin; exfalso; exact Hin.

(** ** Key derivation *)

Lemma replaceUnsafe_kept (c : ascii) :
  keptInName (if keptInName c then c else " "%char) = true.
Proof. each_char c. Qed.

Lemma isCollapsed_of_kept (c : ascii) :
  keptInName c = true -> isSpace c = false -> isCollapsed c = true.
Proof. each_char c. Qed.

Lemma body_of_collapsed (c : ascii) :
  isCollapsed c = true ->
  isBodyChar (if isSpace (lowerChar c) then "-"%char else lowerChar c) = true.
Proof. each_char c. Qed.

Lemma ext_of_lower (c : ascii) :
  isDot c = false -> keptInExt (lowerChar c) = true -> isExtChar (lowerChar c) = true.
Proof. each_char c. Qed.

Lemma isDot_eq (c : ascii) : isDot c = Ascii.eqb c "."%char.
Proof. each_char c. Qed.

Lemma Forall_trimStart (P : ascii -> Prop) (s : list ascii) :
  Forall P s -> Forall P (trimStart s).
Proof.
  induction 1 as [|c t Hc Ht IH]; simpl; [constructor|].
  destruct (isSpace c); [exact IH | constructor; assumption].
Qed.

Lemma Forall_trim (P : ascii -> Prop) (s : list ascii) :
  Forall P s -> Forall P (trim s).
Proof.
  intros Hs. unfold trim, trimEnd.
  apply Forall_rev, Forall_trimStart, Forall_rev, Forall_trimStart, Hs.
Qed.

Lemma Forall_collapseSpaces (s : list ascii) :
  Forall (fun c => keptInName c = true) s ->
  Forall (fun c => isCollapsed c = true) (collapseSpaces s).
Proof.
  induction 1 as [|c t Hc Ht IH]; simpl; [constructor|].
  destruct (isSpace c) eqn:Hsp.
  - destruct t as [|c' t']; [repeat constructor|].
    destruct (isSpace c'); [exact IH|].
    constructor; [reflexivity | exact IH].
  - constructor; [apply isCollapsed_of_kept; assumption | exact IH].
Qed.

Lemma Forall_removeLeadingSlash (P : ascii -> Prop) (s : list ascii) :
  Forall P s -> Forall P (removeLeadingSlash s).
Proof.
  destruct 1 as [|c t Hc Ht]; simpl; [constructor|].
  destruct (isSlash c); [assumption | constructor; assumption].
Qed.

Lemma safeNameOf_body (name : list ascii) :
  Forall (fun c => isBodyChar c = true) (Files.safeNameOf name).
Proof.
  unfold Files.safeNameOf, spacesToDashes, toLowerCase.
  rewrite Forall_fmap, Forall_fmap.
  eapply Forall_impl.
  - apply Forall_collapseSpaces, Forall_trim.
    unfold replaceUnsafe. rewrite Forall_fmap.
    apply Forall_forall. intros c _. apply replaceUnsafe_kept.
  - intros c Hc. simpl. apply body_of_collapsed, Hc.
Qed.

(** The last occurrence of [c] splits the string; without one, the start
    value comes back. *)
Lemma lastIndexOf_from_spec (c : ascii) (s : list ascii) (i acc : Z) :
  (lastIndexOf_from c s i acc = acc /\ (c ∉ s)) \/
  (exists pre post, s = (pre ++ c :: post)%list /\ (c ∉ post) /\
     lastIndexOf_from c s i acc = (i + Z.of_nat (length pre))%Z).
Proof.
  revert i acc. induction s as [|x t IH]; intros i acc; simpl.
  - left. split; [reflexivity | apply not_elem_of_nil].
  - destruct (IH (i + 1)%Z (if Ascii.eqb x c then i else acc))
      as [[Hr Hnot] | (pre & post & Hs & Hpost & Hr)].
    + destruct (Ascii.eqb x c) eqn:Hx.
      * right. apply Ascii.eqb_eq in Hx. subst x.
        exists [], t. simpl. rewrite Hr. split; [reflexivity|]. split; [assumption | lia].
      * left. split; [assumption|].
        apply Ascii.eqb_neq in Hx. rewrite not_elem_of_cons. split; congruence.
    + right. exists (x :: pre), post. subst t. simpl.
      split; [reflexivity|]. split; [assumption | lia].
Qed.

(** An extension, when there is one, is the last dot and what follows it. *)
Lemma extOf_shape (fileName : list ascii) :
  Files.extOf fileName = [] \/
  exists rest, Files.extOf fileName = "."%char :: rest /\ ("."%char ∉ rest).
Proof.
  unfold Files.extOf, lastIndexOf.
  destruct (lastIndexOf_from_spec "."%char fileName 0 (-1))
    as [[Hr _] | (pre & post & Hs & Hpost & Hr)]; rewrite Hr.
  - left. reflexivity.
  - destruct (0 <? 0 + Z.of_nat (length pre))%Z; [|left; reflexivity].
    right. exists post. split; [|assumption].
    unfold substringFrom. subst fileName.
    replace (Z.to_nat (0 + Z.of_nat (length pre))) with (length pre) by lia.
    rewrite drop_app_length. reflexivity.
Qed.

Lemma safeExtOf_shape (rest : list ascii) :
  "."%char ∉ rest ->
  exists rest', Files.safeExtOf ("."%char :: rest) = "."%char :: rest' /\
                Forall (fun c => isExtChar c = true) rest'.
Proof.
  intros Hrest. unfold Files.safeExtOf, stripExt, toLowerCase. simpl.
  rewrite filter_cons_True by reflexivity.
  eexists. split; [reflexivity|].
  induction rest as [|c t IH]; simpl; [constructor|].
  apply not_elem_of_cons in Hrest as [Hc Ht].
  rewrite filter_cons. destruct (decide (keptInExt (lowerChar c) = true)) as [Hk|Hk].
  - constructor; [|apply IH, Ht].
    apply ext_of_lower; [|assumption].
    rewrite isDot_eq. apply Ascii.eqb_neq. congruence.
  - apply IH, Ht.
Qed.

(** What holds of every derived key: a body over [a-z0-9/-] followed by
    nothing or by a dot and a run over [a-z0-9]. *)
Lemma s3SafeFileName_shape (fileName : string) :
  exists body ext,
    chars (Files.s3SafeFileName fileName) = (body ++ ext)%list /\
    Forall (fun c => isBodyChar c = true) body /\
    (ext = [] \/ exists rest, ext = "."%char :: rest /\
                              Forall (fun c => isExtChar c = true) rest).
Proof.
  unfold Files.s3SafeFileName, chars, str.
  rewrite list_ascii_of_string_of_list_ascii.
  eexists _, _. split; [reflexivity|]. split.
  - apply Forall_removeLeadingSlash, safeNameOf_body.
  - destruct (extOf_shape (list_ascii_of_string fileName)) as [-> | (rest & -> & Hrest)].
    + left. reflexivity.
    + right. destruct (safeExtOf_shape rest Hrest) as (rest' & -> & Hall).
      exists rest'. split; [reflexivity | assumption].
Qed.

(** C4, as the code has it: [s3SafeFileName] maps the file name
    "My Book (Part 1)/Chapter.MP3" to exactly the key
    "my-book-part-1-/chapter.mp3": the closing parenthesis becomes a space
    and then a dash in front of the slash. *)
Theorem s3SafeFileName_example :
  Files.s3SafeFileName "My Book (Part 1)/Chapter.MP3" = "my-book-part-1-/chapter.mp3".
Proof. vm_compute. reflexivity. Qed.

(** The key of that file name is not "my-book-part-1/chapter.mp3". *)
Lemma s3SafeFileName_example_differs :
  Files.s3SafeFileName "My Book (Part 1)/Chapter.MP3" <> "my-book-part-1/chapter.mp3".
Proof. vm_compute. discriminate. Qed.

(** C6 at the file name "//a": only one of the two leading slashes is
    removed, so the derived key "/a" starts with a forward slash. *)
Theorem s3SafeFileName_leading_slash :
  Files.s3SafeFileName "//a" = "/a".
Proof. vm_compute. reflexivity. Qed.

(** ** The manager *)

Lemma count_app (p : Event -> bool) (l1 l2 : list Event) :
  count p (l1 ++ l2) = count p l1 + count p l2.
Proof. unfold count. rewrite List.filter_app, length_app. reflexivity. Qed.

(** C7: for every file name or item identifier and payload, [cacheFile] and
    [cacheZipFile] called on a manager that is not initialized throw the
    'S3 storage not initialized' error at once: the manager, the world and
    the trace are as before, so no request went to the object store. *)
Theorem store_not_initialized {World : Type} `{ObjectStore World}
    (st : Machine World) (name : string) (data : Data) :
  isInitialized (this st) = false ->
  Archive.cacheZipFile name data st = (Thrown (Error "S3 storage not initialized"), st) /\
  Files.cacheFile name data st = (Thrown (Error "S3 storage not initialized"), st).
Proof.
  intros Hinit. unfold Archive.cacheZipFile, Files.cacheFile. js.
  rewrite Hinit. simpl. split; reflexivity.
Qed.

Lemma store_not_initialized_witness :
  isInitialized (this (start emptyStore)) = false /\
  Archive.cacheZipFile "book1" (Buffer "PK") (start emptyStore)
    = (Thrown (Error "S3 storage not initialized"), start emptyStore) /\
  Files.cacheFile "book1" (Buffer "PK") (start emptyStore)
    = (Thrown (Error "S3 storage not initialized"), start emptyStore).
Proof.
  split; [reflexivity|].
  apply (store_not_initialized (start emptyStore) "book1" (Buffer "PK")). reflexivity.
Defined.

(** C8: for every configuration that is enabled and has an empty or missing
    region, bucket, access key or secret key, [init] throws a configuration
    error; all it does before that is write one line to the log: the
    manager object is untouched (no client was constructed, and a manager
    that was not initialized still is not), the world is untouched and the
    trace holds no client construction and no network call. *)
Theorem init_incomplete_configuration {World : Type} `{ObjectStore World}
    (st : Machine World) (settings : ServerSettings) :
  cloudStorageEnabled settings = true ->
  incomplete settings = true ->
  exists e st',
    init settings st = (Thrown e, st') /\
    isConfigurationError e /\
    this st' = this st /\
    world st' = world st /\
    trace st' = trace st ++ [Log LogError "[StorageManager] Failed to initialize storage:"] /\
    count isClientConstruction (trace st') = count isClientConstruction (trace st) /\
    count isNetworkCall (trace st') = count isNetworkCall (trace st) /\
    (isInitialized (this st) = false -> isInitialized (this st') = false).
Proof.
  intros Hen Hinc. unfold incomplete in Hinc.
  unfold init, initS3Storage. rewrite Hen. simpl.
  destruct (falsy (cloudStorageS3Region settings) || falsy (cloudStorageS3Bucket settings)) eqn:H1.
  - js. eexists _, _. split; [reflexivity|].
    split; [left; reflexivity|]. simpl.
    rewrite !count_app. simpl. repeat split; auto with lia.
  - simpl in Hinc.
    rewrite Hinc. js. eexists _, _. split; [reflexivity|].
    split; [right; reflexivity|]. simpl.
    rewrite !count_app. simpl. repeat split; auto with lia.
Qed.

Lemma init_incomplete_configuration_witness :
  cloudStorageEnabled noBucket = true /\
  incomplete noBucket = true /\
  exists e st',
    init noBucket (start emptyStore) = (Thrown e, st') /\
    isConfigurationError e /\
    this st' = this (start emptyStore) /\
    world st' = world (start emptyStore) /\
    trace st' = trace (start emptyStore)
                ++ [Log LogError "[StorageManager] Failed to initialize storage:"] /\
    count isClientConstruction (trace st') = count isClientConstruction (trace (start emptyStore)) /\
    count isNetworkCall (trace st') = count isNetworkCall (trace (start emptyStore)) /\
    (isInitialized (this (start emptyStore)) = false -> isInitialized (this st') = false).
Proof.
  split; [reflexivity|]. split; [reflexivity|].
  apply (init_incomplete_configuration (start emptyStore) noBucket); reflexivity.
Defined.

(** [init] with a complete configuration, by what the store answers to the
    bucket probe. *)
Lemma init_complete {World : Type} `{ObjectStore World}
    (st : Machine World) (settings : ServerSettings) :
  cloudStorageEnabled settings = true ->
  incomplete settings = false ->
  let client := clientOf settings in
  let b := cloudStorageS3Bucket settings in
  let configured := set_bucket b (set_s3Client client (this st)) in
  let begun :=
    trace st ++
    [Log LogInfo ("[StorageManager] Configuring S3 storage - Region: "
                  +:+ show (cloudStorageS3Region settings) +:+ ", Bucket: " +:+ show b);
     NewS3Client client;
     Send client (HeadBucketCommand b)] in
  init settings st =
    match s3_send client (HeadBucketCommand b) (world st) with
    | (Returned _, w) =>
        (Returned tt,
         {| this := set_isInitialized true configured; world := w;
            trace := begun ++
              [Log LogInfo ("[StorageManager] Successfully connected to S3 bucket: " +:+ show b);
               Log LogInfo "[StorageManager] Storage initialized successfully"] |})
    | (Thrown e, w) =>
        (Thrown (Error ("S3 bucket access failed: " +:+ message e)),
         {| this := configured; world := w;
            trace := begun ++
              [Log LogError ("[StorageManager] Failed to access S3 bucket " +:+ show b +:+ ":");
               Log LogError "[StorageManager] Failed to initialize S3 client:";
               Log LogError "[StorageManager] Failed to initialize storage:"] |})
    end.
Proof.
  intros Hen Hinc. unfold incomplete in Hinc.
  apply orb_false_elim in Hinc as [Hinc H4].
  apply orb_false_elim in Hinc as [Hinc H3].
  simpl. unfold init, initS3Storage, testS3Connection. rewrite Hen, Hinc, H3, H4. js.
  fold (clientOf settings).
  destruct (s3_send (clientOf settings) (HeadBucketCommand (cloudStorageS3Bucket settings)) (world st))
    as [[[]|e] w]; simpl; rewrite <- ?app_assoc; reflexivity.
Qed.

(** C5, as the code has it: [init] has no guard on [isInitialized], so with
    an enabled and complete configuration every call constructs a client
    and issues the bucket probe once, twice across two calls in sequence;
    after a call whose probe is answered without error the manager is
    initialized, and once initialized it still is after the second call. *)
Theorem init_twice {World : Type} `{ObjectStore World}
    (st : Machine World) (settings : ServerSettings) :
  cloudStorageEnabled settings = true ->
  incomplete settings = false ->
  let first := init settings st in
  let second := init settings (snd first) in
  count isProbe (trace (snd first)) = count isProbe (trace st) + 1 /\
  count isProbe (trace (snd second)) = count isProbe (trace st) + 2 /\
  count isClientConstruction (trace (snd second))
    = count isClientConstruction (trace st) + 2 /\
  (fst first = Returned tt ->
   isInitialized (this (snd first)) = true /\ isInitialized (this (snd second)) = true) /\
  (fst second = Returned tt -> isInitialized (this (snd second)) = true).
Proof.
  intros Hen Hinc first second. subst second first.
  rewrite (init_complete st settings Hen Hinc).
  destruct (s3_send (clientOf settings) (HeadBucketCommand (cloudStorageS3Bucket settings))
              (world st)) as [[[]|e] w]; simpl;
    match goal with |- context [init settings ?s] =>
      rewrite (init_complete s settings Hen Hinc); simpl;
      destruct (s3_send (clientOf settings) (HeadBucketCommand (cloudStorageS3Bucket settings)) w)
        as [[[]|e'] w']; simpl
    end;
    rewrite !count_app; unfold count; simpl; repeat split; try lia; try discriminate.
Qed.

Lemma init_twice_witness :
  cloudStorageEnabled validSettings = true /\
  incomplete validSettings = false /\
  fst (init validSettings (start emptyStore)) = Returned tt /\
  let first := init validSettings (start emptyStore) in
  let second := init validSettings (snd first) in
  count isProbe (trace (snd first)) = count isProbe (trace (start emptyStore)) + 1 /\
  count isProbe (trace (snd second)) = count isProbe (trace (start emptyStore)) + 2 /\
  count isClientConstruction (trace (snd second))
    = count isClientConstruction (trace (start emptyStore)) + 2 /\
  (fst first = Returned tt ->
   isInitialized (this (snd first)) = true /\ isInitialized (this (snd second)) = true) /\
  (fst second = Returned tt -> isInitialized (this (snd second)) = true).
Proof.
  split; [reflexivity|]. split; [reflexivity|]. split; [reflexivity|].
  apply (init_twice (start emptyStore) validSettings); reflexivity.
Defined.

(** Two calls of [init] with the same valid configuration against a
    reachable bucket: the manager is initialized after each, and the probe
    was issued more than once. *)
Lemma init_twice_probes_twice :
  let first := init validSettings (start emptyStore) in
  let second := init validSettings (snd first) in
  fst first = Returned tt /\ fst second = Returned tt /\
  isInitialized (this (snd first)) = true /\
  isInitialized (this (snd second)) = true /\
  ~ (count isProbe (trace (snd second)) <= 1).
Proof.
  simpl. repeat split. vm_compute. lia.
Qed.

(** C2, as the code has it: for every item identifier and expiry, when the
    existence probe or the URL signing of [getSignedUrlForZipFile] fails
    on an initialized manager with an error whose kind is not 'not found',
    the call throws that very error (it does not return [null]); in the
    same situation [getSignedUrlForFile] returns no URL. *)
Theorem signed_url_other_error {World : Type} `{ObjectStore World}
    (st : Machine World) (client : S3Client) (itemId fileName : string)
    (expiresIn : option N) (e : JsError) :
  isInitialized (this st) = true ->
  s3Client (this st) = Some client ->
  isNotFound e = false ->
  let probe key := s3_send client (HeadObjectCommand (bucket (this st)) key) (world st) in
  let sign key :=
    s3_getSignedUrl client (GetObjectCommand (bucket (this st)) key)
      (default 3600%N expiresIn) (snd (probe key)) in
  let fails key :=
    fst (probe key) = Thrown e \/ (fst (probe key) = Returned tt /\ fst (sign key) = Thrown e) in
  (fails (Archive.getKey itemId) ->
   fst (Archive.getSignedUrlForZipFile itemId expiresIn st) = Thrown e) /\
  (fails (Files.s3SafeFileName fileName) ->
   forall url, fst (Files.getSignedUrlForFile fileName expiresIn st) <> Returned (Some url)).
Proof.
  intros Hinit Hclient He probe sign fails. subst fails sign probe. simpl.
  unfold Archive.getSignedUrlForZipFile, Files.getSignedUrlForFile. js.
  rewrite Hinit. simpl. rewrite Hclient. simpl. split.
  - intros [Hp | [Hp Hs]].
    + destruct (s3_send client _ (world st)) as [r w]. simpl in *. subst r.
      simpl. rewrite He. reflexivity.
    + destruct (s3_send client _ (world st)) as [r w]. simpl in *. subst r.
      simpl. rewrite Hclient. simpl.
      destruct (s3_getSignedUrl client _ _ w) as [r' w']. simpl in *. subst r'.
      simpl. rewrite He. reflexivity.
  - intros [Hp | [Hp Hs]] url.
    + destruct (s3_send client _ (world st)) as [r w]. simpl in *. subst r.
      simpl. rewrite He. simpl. discriminate.
    + destruct (s3_send client _ (world st)) as [r w]. simpl in *. subst r.
      simpl. rewrite Hclient. simpl.
      destruct (s3_getSignedUrl client _ _ w) as [r' w']. simpl in *. subst r'.
      simpl. rewrite He. simpl. discriminate.
Qed.

Lemma signed_url_other_error_witness :
  isInitialized (this (readyOn deniedStore)) = true /\
  s3Client (this (readyOn deniedStore)) = Some (clientOf validSettings) /\
  isNotFound accessDenied = false /\
  fst (Archive.getSignedUrlForZipFile "book1" None (readyOn deniedStore)) = Thrown accessDenied /\
  fst (Archive.getSignedUrlForZipFile "book1" None (readyOn unsignedStore)) = Thrown accessDenied /\
  (forall url, fst (Files.getSignedUrlForFile "book1.zip" None (readyOn deniedStore))
               <> Returned (Some url)).
Proof.
  split; [reflexivity|]. split; [reflexivity|]. split; [reflexivity|].
  destruct (signed_url_other_error (readyOn deniedStore) (clientOf validSettings)
              "book1" "book1.zip" None accessDenied eq_refl eq_refl eq_refl) as [HA HF].
  destruct (signed_url_other_error (readyOn unsignedStore) (clientOf validSettings)
              "book1" "book1.zip" None accessDenied eq_refl eq_refl eq_refl) as [HA' _].
  split; [apply HA; left; reflexivity|].
  split; [apply HA'; right; split; reflexivity|].
  apply HF. left. reflexivity.
Defined.

(** [getSignedUrlForFile] on an initialized manager whose probe is answered
    'AccessDenied': what reaches the caller is not that error but the
    [ReferenceError] of the handler's own log line. *)
Lemma getSignedUrlForFile_other_error :
  isInitialized (this (readyOn deniedStore)) = true /\
  fst (s3_send (clientOf validSettings)
         (HeadObjectCommand (Some "abs-cache") (Files.s3SafeFileName "book1.zip"))
         deniedStore) = Thrown accessDenied /\
  isNotFound accessDenied = false /\
  fst (Files.getSignedUrlForFile "book1.zip" None (readyOn deniedStore))
    = Thrown (ReferenceError "itemId") /\
  fst (Files.getSignedUrlForFile "book1.zip" None (readyOn deniedStore))
    <> Thrown accessDenied.
Proof.
  repeat split; try reflexivity. vm_compute. discriminate.
Qed.

(** No method writes [isS3Enabled]: it keeps the [false] of the
    constructor. *)
Lemma init_isS3Enabled {World : Type} `{ObjectStore World}
    (settings : ServerSettings) (st : Machine World) :
  isS3Enabled (this (snd (init settings st))) = isS3Enabled (this st).
Proof.
  unfold init, initS3Storage, testS3Connection. js. js_cases.
Qed.

Lemma Archive_perform_isS3Enabled {World : Type} `{ObjectStore World}
    (c : Archive.Call) (st : Machine World) :
  isS3Enabled (this (snd (Archive.perform c st))) = isS3Enabled (this st).
Proof.
  destruct c as [settings| itemId data | itemId expiresIn | itemId filename]; simpl.
  - apply init_isS3Enabled.
  - unfold Archive.cacheZipFile. js. js_cases.
  - unfold Archive.getSignedUrlForZipFile. js. js_cases.
  - unfold Archive.zipFileExists. js. js_cases.
Qed.

Lemma Files_perform_isS3Enabled {World : Type} `{ObjectStore World}
    (c : Files.Call) (st : Machine World) :
  isS3Enabled (this (snd (Files.perform c st))) = isS3Enabled (this st).
Proof.
  destruct c as [settings| fileName data | fileName expiresIn | itemId filename]; simpl.
  - apply init_isS3Enabled.
  - unfold Files.cacheFile. js. js_cases.
  - unfold Files.getSignedUrlForFile. js. js_cases.
  - unfold Files.zipFileExists. js. js_cases.
Qed.

Lemma Archive_reachable_isS3Enabled {World : Type} `{ObjectStore World}
    (m : StorageManager) :
  Archive.reachable (World := World) m -> isS3Enabled m = false.
Proof.
  induction 1 as [|c st _ IH]; [reflexivity|].
  rewrite Archive_perform_isS3Enabled. exact IH.
Qed.

Lemma Files_reachable_isS3Enabled {World : Type} `{ObjectStore World}
    (m : StorageManager) :
  Files.reachable (World := World) m -> isS3Enabled m = false.
Proof.
  induction 1 as [|c st _ IH]; [reflexivity|].
  rewrite Files_perform_isS3Enabled. exact IH.
Qed.

(** With [isS3Enabled] false the guard of [zipFileExists] answers. *)
Lemma zipFileExists_guard {World : Type} `{ObjectStore World}
    (st : Machine World) (itemId : string) (filename : option string) :
  isS3Enabled (this st) = false ->
  Archive.zipFileExists itemId filename st = (Returned false, st) /\
  Files.zipFileExists itemId filename st = (Returned false, st).
Proof.
  intros Hen. unfold Archive.zipFileExists, Files.zipFileExists. js.
  rewrite Hen, orb_true_r. split; reflexivity.
Qed.

(** For every item identifier, on every manager the module can get to
    (a new one followed by any calls of its methods) the existence check
    returns [false] without a request to the store, leaving manager, world
    and trace as they were; and on any manager with a client, a probe
    answered by a 'not found' kind of error gives [false]. *)
Lemma zipFileExists_false {World : Type} `{ObjectStore World}
    (st : Machine World) (itemId : string) (filename : option string) :
  (Archive.reachable (World := World) (this st) ->
   Archive.zipFileExists itemId filename st = (Returned false, st)) /\
  (Files.reachable (World := World) (this st) ->
   Files.zipFileExists itemId filename st = (Returned false, st)) /\
  (forall client e,
     s3Client (this st) = Some client ->
     isNotFound e = true ->
     (fst (s3_send client (HeadObjectCommand (bucket (this st)) (Archive.getKey itemId))
             (world st)) = Thrown e ->
      fst (Archive.zipFileExists itemId filename st) = Returned false) /\
     (fst (s3_send client (HeadObjectCommand (bucket (this st)) (Files.s3SafeFileName itemId))
             (world st)) = Thrown e ->
      fst (Files.zipFileExists itemId filename st) = Returned false)).
Proof.
  split; [|split].
  - intros Hr. apply zipFileExists_guard, Archive_reachable_isS3Enabled, Hr.
  - intros Hr. apply zipFileExists_guard, Files_reachable_isS3Enabled, Hr.
  - intros client e Hclient He.
    unfold Archive.zipFileExists, Files.zipFileExists. js.
    destruct (negb (isInitialized (this st)) || negb (isS3Enabled (this st)));
      [split; reflexivity|].
    simpl. rewrite Hclient. simpl. split; intros Hp.
    + destruct (s3_send client _ (world st)) as [r w]. simpl in *. subst r.
      simpl. rewrite He. reflexivity.
    + destruct (s3_send client _ (world st)) as [r w]. simpl in *. subst r.
      simpl. rewrite He. reflexivity.
Qed.



(** C1 at a store that holds the object: a new manager is initialized
    against a reachable bucket and caches the archive of item "book1" (and
    the file "book1.zip"); the object is in the store under the derived
    key, and [zipFileExists] for the same identifier still returns
    [false], without a request to the store. *)
Theorem zipFileExists_after_store :
  let st1 := snd (init validSettings (start emptyStore)) in
  let archived := Archive.cacheZipFile "book1" (Buffer "PK") st1 in
  let filed := Files.cacheFile "book1.zip" (Buffer "PK") st1 in
  isInitialized (this st1) = true /\
  fst archived = Returned "audiobooks/book1.zip" /\
  objects (world (snd archived)) !! "audiobooks/book1.zip" = Some (Buffer "PK") /\
  isInitialized (this (snd archived)) = true /\
  Archive.zipFileExists "book1" None (snd archived) = (Returned false, snd archived) /\
  fst filed = Returned "book1.zip" /\
  objects (world (snd filed)) !! "book1.zip" = Some (Buffer "PK") /\
  Files.zipFileExists "book1.zip" None (snd filed) = (Returned false, snd filed).
Proof.
  vm_compute. repeat split.
Qed.

(** ** The permission backfill *)

Lemma all_ne_lookup {A : Type} {Q : positive -> Prop} (P : A -> Prop)
    (t : gmap_dep_ne A Q) (i : positive) (x : A) :
  all_ne P t -> gmap.gmap_dep_ne_lookup i t = Some x -> P x.
Proof.
  revert i. induction t; intros i; destruct i; simpl; intros Hall Hl;
    try discriminate; try (injection Hl as <-); intuition eauto.
Qed.

Section Json_induction.
Variable P : Migration.Json -> Prop.
Hypothesis Hnull : P Migration.JNull.
Hypothesis Hbool : forall b, P (Migration.JBool b).
Hypothesis Hnumber : forall bits, P (Migration.JNumber bits).
Hypothesis Hstring : forall s, P (Migration.JString s).
Hypothesis Harray : forall items, Forall P items -> P (Migration.JArray items).
Hypothesis Hobject :
  forall fields, map_Forall (fun _ => P) fields -> P (Migration.JObject fields).

Lemma object_of_all (mt : gmap_dep Migration.Json (gmap_key string)) :
  match mt with GEmpty => True | GNodes t => all_ne P t end ->
  P (Migration.JObject (GMap mt)).
Proof.
  intros Hall. apply Hobject. intros i x Hl.
  destruct mt as [|t]; [discriminate|].
  eapply all_ne_lookup; [exact Hall | exact Hl].
Qed.

(** Induction on a JSON value, with the property at hand for the items of
    an array and for the values of an object. *)
Lemma Json_nested_ind (v : Migration.Json) : P v.
Proof.
  revert v.
  exact (fix IH (v : Migration.Json) : P v :=
    match v with
    | Migration.JNull => Hnull
    | Migration.JBool b => Hbool b
    | Migration.JNumber bits => Hnumber bits
    | Migration.JString s => Hstring s
    | Migration.JArray items =>
        Harray items
          ((fix go (l : list Migration.Json) : Forall P l :=
              match l with
              | [] => @List.Forall_nil Migration.Json P
              | x :: l' => @List.Forall_cons Migration.Json P x l' (IH x) (go l')
              end) items)
    | Migration.JObject (GMap mt) =>
        object_of_all mt
          match mt with
          | GEmpty => I
          | GNodes t =>
              (fix go {Q} (t : gmap_dep_ne Migration.Json Q) : all_ne P t :=
                 match t with
                 | GNode001 r => go r
                 | GNode010 _ x => IH x
                 | GNode011 _ x r => conj (IH x) (go r)
                 | GNode100 l => go l
                 | GNode101 l r => conj (go l) (go r)
                 | GNode110 l _ x => conj (go l) (IH x)
                 | GNode111 l _ x r => conj (go l) (conj (IH x) (go r))
                 end) _ t
          end
    end).
Qed.

End Json_induction.

Lemma stringified_object (fields : gmap string Migration.Json) :
  Migration.stringified (Migration.JObject fields)
    = Migration.JObject (Migration.stringified <$> fields).
Proof. reflexivity. Qed.

Lemma stringified_array (items : list Migration.Json) :
  Migration.stringified (Migration.JArray items)
    = Migration.JArray (Migration.stringified <$> items).
Proof. reflexivity. Qed.

Lemma stringifiedNumber_idem (bits : Z) :
  Migration.stringified (Migration.stringifiedNumber bits) = Migration.stringifiedNumber bits.
Proof.
  unfold Migration.stringifiedNumber.
  destruct (Migration.exponentOf bits =? 2047)%Z eqn:E; [reflexivity|].
  destruct (bits =? Migration.negativeZero)%Z eqn:N;
    cbn [Migration.stringified]; unfold Migration.stringifiedNumber.
  - reflexivity.
  - rewrite E, N. reflexivity.
Qed.

(** A text written by [JSON.stringify] is written back as it is. *)
Lemma stringified_idem (v : Migration.Json) :
  Migration.stringified (Migration.stringified v) = Migration.stringified v.
Proof.
  induction v as [| | | |l IH|f IH] using Json_nested_ind;
    cbn [Migration.stringified]; try reflexivity.
  - apply stringifiedNumber_idem.
  - f_equal. rewrite <- list_fmap_compose. apply list_fmap_ext.
    intros i x Hx. apply (Forall_lookup_1 _ _ _ _ IH Hx).
  - f_equal. rewrite <- map_fmap_compose. apply map_fmap_ext.
    intros i x Hx. apply (IH i x Hx).
Qed.

(** [JSON.stringify] writes an ordinary value as it is. *)
Lemma stringified_ordinary (v : Migration.Json) :
  ordinary v -> Migration.stringified v = v.
Proof.
  induction 1 as [|b|bits Hexp Hzero|s|items _ IH|fields _ IH];
    cbn [Migration.stringified]; try reflexivity.
  - unfold Migration.stringifiedNumber.
    apply Z.eqb_neq in Hexp. apply Z.eqb_neq in Hzero. rewrite Hexp, Hzero. reflexivity.
  - f_equal. apply list_eq. intros i. rewrite list_lookup_fmap.
    destruct (items !! i) as [x|] eqn:Hx; simpl; [|reflexivity].
    f_equal. apply (IH i x Hx).
  - f_equal. apply map_eq. intros key. rewrite lookup_fmap.
    destruct (fields !! key) as [x|] eqn:Hx; simpl; [|reflexivity].
    f_equal. apply (IH key x Hx).
Qed.

(** A loop that writes, for each selected row, the text of the object
    [choose] gives for it acts on the table row by row. *)
Lemma foldl_rowwise (choose : Migration.User -> option Migration.Json)
    (rejected : string -> bool) (rows : list (string * Migration.User))
    (t : gmap string Migration.User) (j : string) :
  NoDup rows.*1 ->
  foldl (fun t row =>
           match choose (snd row) with
           | Some p => if rejected (fst row) then t
                       else Migration.updatePermissions (fst row)
                              (Migration.JSON_stringify p) t
           | None => t
           end) t rows !! j =
    match (list_to_map rows : gmap string Migration.User) !! j with
    | Some u =>
        match choose u with
        | Some p =>
            if rejected j then t !! j
            else Migration.withPermissions (Migration.JSON_stringify p) <$> t !! j
        | None => t !! j
        end
    | None => t !! j
    end.
Proof.
  revert t. induction rows as [|[i u] rows IH]; intros t Hnd; simpl.
  - rewrite lookup_empty. reflexivity.
  - apply NoDup_cons in Hnd as [Hi Hnd]. rewrite (IH _ Hnd).
    destruct (decide (i = j)) as [->|Hne].
    + rewrite lookup_insert_eq, (not_elem_of_list_to_map_1 rows j Hi).
      unfold Migration.updatePermissions.
      destruct (choose u); [|reflexivity].
      destruct (rejected j); [reflexivity|]. apply lookup_alter_eq.
    + rewrite (lookup_insert_ne _ i j) by assumption.
      assert ((match choose u with
               | Some p => if rejected i then t
                           else Migration.updatePermissions i (Migration.JSON_stringify p) t
               | None => t
               end) !! j = t !! j) as ->; [|reflexivity].
      unfold Migration.updatePermissions.
      destruct (choose u); [|reflexivity].
      destruct (rejected i); [reflexivity|]. apply lookup_alter_ne, Hne.
Qed.

Lemma selectRootAndAdmin_NoDup (t : gmap string Migration.User) :
  NoDup (Migration.selectRootAndAdmin t).*1.
Proof.
  unfold Migration.selectRootAndAdmin.
  apply (sublist_NoDup _ (map_to_list t).*1); [apply NoDup_fst_map_to_list|].
  apply fmap_sublist, sublist_filter.
Qed.

Lemma selectRootAndAdmin_lookup (t : gmap string Migration.User) (j : string) :
  (list_to_map (Migration.selectRootAndAdmin t) : gmap string Migration.User) !! j =
    match t !! j with
    | Some u => if Migration.isRootOrAdmin u then Some u else None
    | None => None
    end.
Proof.
  destruct (t !! j) as [u|] eqn:Ht.
  - destruct (Migration.isRootOrAdmin u) eqn:Hu.
    + apply elem_of_list_to_map; [apply selectRootAndAdmin_NoDup|].
      apply list_elem_of_filter. split; [exact Hu|].
      apply elem_of_map_to_list, Ht.
    + apply not_elem_of_list_to_map_1. intros Hin.
      apply list_elem_of_fmap in Hin as ([j' u'] & -> & Hin).
      apply list_elem_of_filter in Hin as [Hu' Hin].
      apply elem_of_map_to_list in Hin. simpl in *. congruence.
  - apply not_elem_of_list_to_map_1. intros Hin.
    apply list_elem_of_fmap in Hin as ([j' u'] & -> & Hin).
    apply list_elem_of_filter in Hin as [_ Hin].
    apply elem_of_map_to_list in Hin. simpl in *. congruence.
Qed.

(** The loop over the selected rows acts on each row of the table by
    itself. *)
Lemma upUsers_lookup (rejected : string -> bool) (t : gmap string Migration.User)
    (j : string) :
  Migration.upUsers rejected t !! j = upgraded rejected j <$> t !! j.
Proof.
  unfold Migration.upUsers, Migration.updateUser.
  rewrite (foldl_rowwise Migration.newPermissions) by apply selectRootAndAdmin_NoDup.
  rewrite selectRootAndAdmin_lookup. unfold upgraded.
  destruct (t !! j) as [u|]; simpl; [|reflexivity].
  destruct (Migration.isRootOrAdmin u); [|reflexivity].
  destruct (Migration.newPermissions u); [|reflexivity].
  destruct (rejected j); reflexivity.
Qed.

Lemma withPermissions_same (u : Migration.User) :
  Migration.withPermissions (Migration.permissions u) u = u.
Proof. destruct u. reflexivity. Qed.

Lemma isRootOrAdmin_withPermissions (p : Migration.Cell) (u : Migration.User) :
  Migration.isRootOrAdmin (Migration.withPermissions p u) = Migration.isRootOrAdmin u.
Proof. reflexivity. Qed.

(** What the loop body of [up] hands to [JSON.stringify], by the cell it
    starts from. *)
Lemma newPermissions_cases (u : Migration.User) (p : Migration.Json) :
  Migration.newPermissions u = Some p ->
  (exists fields,
     Migration.objectOf (Migration.permissions u) = Some fields /\
     fields !! "saveToCloud" = None /\
     p = Migration.JObject (<["saveToCloud" := Migration.JBool true]> fields)) \/
  (Migration.permissions u = Migration.CellJson p /\
   p <> Migration.JNull /\ forall fields, p <> Migration.JObject fields).
Proof.
  destruct u as [uname utype perms others].
  destruct perms as [|text|v]; mig_eval; rewrite ?lookup_empty; [| discriminate |].
  - intros [= <-]. left. exists ∅. rewrite lookup_empty. auto.
  - destruct v as [|b|bits|s|items|fields]; mig_eval;
      try discriminate; try (intros [= <-]; right; repeat split; congruence).
    destruct (fields !! "saveToCloud") eqn:Hf; [discriminate|].
    intros [= <-]. left. exists fields. auto.
Qed.

(** The text the loop body writes makes a further pass either write
    nothing or write the same text. *)
Lemma newPermissions_settles (u : Migration.User) (p : Migration.Json) :
  Migration.newPermissions u = Some p ->
  match Migration.newPermissions
          (Migration.withPermissions (Migration.JSON_stringify p) u) with
  | None => True
  | Some p' => Migration.JSON_stringify p' = Migration.JSON_stringify p
  end.
Proof.
  intros Hp. destruct (newPermissions_cases u p Hp) as [(fields & _ & _ & ->) | (_ & Hnull & Hobj)].
  - unfold Migration.JSON_stringify. rewrite stringified_object. mig_eval.
    rewrite lookup_fmap, lookup_insert_eq. exact I.
  - unfold Migration.JSON_stringify.
    assert (forall fields, Migration.stringified p <> Migration.JObject fields) as Hobj'.
    { destruct p; cbn [Migration.stringified]; try congruence;
        try (exfalso; exact (Hobj _ eq_refl)).
      unfold Migration.stringifiedNumber.
      destruct (Migration.exponentOf bits =? 2047)%Z; [congruence|].
      destruct (bits =? Migration.negativeZero)%Z; congruence. }
    mig_eval. destruct (Migration.stringified p) as [|b|bits|s|items|fields] eqn:Hs;
      try exact I; try (rewrite <- Hs, stringified_idem; reflexivity).
    exfalso. exact (Hobj' _ eq_refl).
Qed.

(** A row that went through a run whose statements were all executed is
    left alone by any further run. *)
Lemma upgraded_again (rejected : string -> bool) (id : string) (u : Migration.User) :
  upgraded rejected id (upgraded Migration.executed id u) = upgraded Migration.executed id u.
Proof.
  unfold upgraded, Migration.executed.
  destruct (Migration.isRootOrAdmin u) eqn:Hu; [|rewrite Hu; reflexivity].
  destruct (Migration.newPermissions u) as [p|] eqn:Hp.
  - rewrite isRootOrAdmin_withPermissions, Hu.
    pose proof (newPermissions_settles u p Hp) as Hs.
    destruct (Migration.newPermissions
                (Migration.withPermissions (Migration.JSON_stringify p) u)) as [p'|];
      [|reflexivity].
    destruct (rejected id); [reflexivity|]. rewrite Hs. reflexivity.
  - rewrite Hu, Hp. reflexivity.
Qed.

(** C9: for every state of the database, [up] changes nothing when there
    is no [users] table, and otherwise keeps every row under its id with
    its user name, type and other columns.  The permissions of a row are
    either as before, or the row is of type 'root' or 'admin' and its
    permissions were written back through [JSON.stringify]: read as an
    object without [saveToCloud], they become that object as
    [JSON.stringify] writes it, with [saveToCloud] set to [true]; being a
    boolean, a number, a string or an array, they become that value as
    [JSON.stringify] writes it.  After a run whose UPDATE statements were
    all executed, another run changes nothing.  [JSON.stringify] writes
    every value as it is in which no number is [Infinity], [-Infinity],
    [NaN] or [-0]. *)
Theorem up_frame (rejected : string -> bool) (db : Migration.Database) :
  match Migration.users db with
  | None => Migration.up rejected db = db
  | Some t =>
      exists t',
        Migration.users (Migration.up rejected db) = Some t' /\
        forall id : string,
          match t !! id with
          | None => t' !! id = None
          | Some u =>
              exists u',
                t' !! id = Some u' /\
                Migration.username u' = Migration.username u /\
                Migration.type u' = Migration.type u /\
                Migration.otherColumns u' = Migration.otherColumns u /\
                (Migration.permissions u' = Migration.permissions u \/
                 (exists fields,
                    Migration.isRootOrAdmin u = true /\
                    Migration.objectOf (Migration.permissions u) = Some fields /\
                    fields !! "saveToCloud" = None /\
                    Migration.permissions u' =
                      Migration.CellJson
                        (Migration.JObject
                           (<["saveToCloud" := Migration.JBool true]>
                              (Migration.stringified <$> fields))) /\
                    forall key : string,
                      key <> "saveToCloud" ->
                      (<["saveToCloud" := Migration.JBool true]>
                         (Migration.stringified <$> fields)) !! key
                        = Migration.stringified <$> fields !! key) \/
                 (exists v,
                    Migration.isRootOrAdmin u = true /\
                    Migration.permissions u = Migration.CellJson v /\
                    v <> Migration.JNull /\
                    (forall fields, v <> Migration.JObject fields) /\
                    Migration.permissions u' = Migration.CellJson (Migration.stringified v)))
          end
  end /\
  Migration.up rejected (Migration.up Migration.executed db)
    = Migration.up Migration.executed db /\
  (forall v : Migration.Json, ordinary v -> Migration.stringified v = v).
Proof.
  split; [|split].
  - unfold Migration.up. destruct (Migration.users db) as [t|]; [|reflexivity].
    eexists. split; [reflexivity|]. intros id. simpl.
    rewrite upUsers_lookup. destruct (t !! id) as [u|]; simpl; [|reflexivity].
    eexists. split; [reflexivity|]. unfold upgraded.
    destruct (Migration.isRootOrAdmin u) eqn:Hu; [|auto].
    destruct (Migration.newPermissions u) as [p|] eqn:Hp; [|auto].
    destruct (rejected id); [auto|].
    repeat split.
    destruct (newPermissions_cases u p Hp) as [(fields & Hobj & Hf & ->) | (Hcell & Hnull & Hobj)].
    + right. left. exists fields. repeat split; try assumption.
      * simpl. unfold Migration.JSON_stringify.
        rewrite stringified_object, fmap_insert. reflexivity.
      * intros key Hkey. rewrite lookup_insert_ne by congruence. apply lookup_fmap.
    + right. right. exists p. repeat split; assumption.
  - unfold Migration.up. destruct (Migration.users db) as [t|] eqn:Ht; simpl.
    + f_equal. f_equal. apply map_eq. intros j.
      rewrite !upUsers_lookup. destruct (t !! j) as [u|]; simpl; [|reflexivity].
      f_equal. apply upgraded_again.
    + rewrite Ht. reflexivity.
  - exact stringified_ordinary.
Qed.

(** A run of [up] whose UPDATE statements were all executed, on a table
    with other keys held as [1e400] and [-0]: the limit comes back as
    [null] and the offset as [0]; a cell that is the text [1e400] comes
    back as [null] without a [saveToCloud] key. *)
Lemma up_rewrites_other_keys :
  let before := Migration.objectOf ∘ Migration.permissions <$> extremeUsers !! "1" in
  let t' := Migration.upUsers Migration.executed extremeUsers in
  let after := Migration.objectOf ∘ Migration.permissions <$> t' !! "1" in
  before = Some (Some {[ "limit" := Migration.JNumber Migration.positiveInfinity;
                         "offset" := Migration.JNumber Migration.negativeZero;
                         "download" := Migration.JBool true ]}) /\
  after = Some (Some {[ "limit" := Migration.JNull;
                        "offset" := Migration.JNumber 0;
                        "download" := Migration.JBool true;
                        "saveToCloud" := Migration.JBool true ]}) /\
  Migration.JNull <> Migration.JNumber Migration.positiveInfinity /\
  Migration.JNumber 0 <> Migration.JNumber Migration.negativeZero /\
  Migration.permissions <$> extremeUsers !! "2"
    = Some (Migration.CellJson (Migration.JNumber Migration.positiveInfinity)) /\
  Migration.permissions <$> t' !! "2" = Some (Migration.CellJson Migration.JNull).
Proof. vm_compute. repeat split; discriminate. Qed.

Example up_sample :
  let t' := Migration.upUsers Migration.executed sampleUsers in
  Migration.permissions <$> t' !! "1"
    = Some (Migration.CellJson (Migration.JObject
              (<["saveToCloud" := Migration.JBool true]>
                 {[ "download" := Migration.JBool true ]}))) /\
  Migration.permissions <$> t' !! "2"
    = Some (Migration.CellJson (Migration.JObject {[ "saveToCloud" := Migration.JBool true ]})) /\
  t' !! "3" = sampleUsers !! "3" /\
  t' !! "4" = sampleUsers !! "4" /\
  t' !! "5" = sampleUsers !! "5" /\
  t' !! "6" = None.
Proof. vm_compute. repeat split. Qed.

Lemma up_frame_witness :
  Migration.up Migration.executed
    (Migration.up Migration.executed {| Migration.users := Some extremeUsers |})
  = Migration.up Migration.executed {| Migration.users := Some extremeUsers |} /\
  Migration.stringified (Migration.JBool true) = Migration.JBool true.
Proof.
  destruct (up_frame Migration.executed {| Migration.users := Some extremeUsers |})
    as (_ & Hagain & Hordinary).
  split; [exact Hagain | exact (Hordinary _ (ordinary_bool true))].
Defined.

(** ** The save-to-cloud button *)

Lemma saveToCloud_invariant (props : LibraryFilesTableRow.Props)
    (c : LibraryFilesTableRow.Component) :
  LibraryFilesTableRow.reachable props c ->
  length (LibraryFilesTableRow.inFlight c)
    = if LibraryFilesTableRow.savingsToCloud c then 1 else 0.
Proof.
  induction 1 as [|c c' _ IH Hstep]; [reflexivity|].
  destruct Hstep as [c | c i settled Hi].
  - unfold LibraryFilesTableRow.saveToCloud.
    destruct (LibraryFilesTableRow.savingsToCloud c) eqn:Hs; simpl.
    + rewrite Hs. exact IH.
    + rewrite length_app, IH. reflexivity.
  - assert (length (delete i (LibraryFilesTableRow.inFlight c)) = 0) as Hlen.
    { destruct (LibraryFilesTableRow.inFlight c) as [|r [|r' rest]];
        destruct (LibraryFilesTableRow.savingsToCloud c); simpl in *; try lia.
      destruct i; [reflexivity | lia]. }
    unfold LibraryFilesTableRow.saveToCloudSettled.
    destruct settled as [response | error]; simpl.
    + destruct (LibraryFilesTableRow.success response); simpl; exact Hlen.
    + destruct (LibraryFilesTableRow.catchBlock error); simpl; exact Hlen.
Qed.

(** C10: [saveToCloud] invoked while [savingsToCloud] is true returns at
    once, issuing no request and leaving the component as it is; an
    invocation that issued its request leaves [savingsToCloud] false when
    it completes, whether the request was fulfilled or rejected (and also
    when the [catch] block itself throws); and on a mounted row, whatever
    clicks and settlements came before, at most one request is in
    flight. *)
Theorem saveToCloud_single_flight (props : LibraryFilesTableRow.Props) :
  (forall c, LibraryFilesTableRow.savingsToCloud c = true ->
             LibraryFilesTableRow.saveToCloud props c = (None, c)) /\
  (forall c i settled,
     LibraryFilesTableRow.savingsToCloud
       (snd (LibraryFilesTableRow.saveToCloudSettled i settled c)) = false) /\
  (forall c, LibraryFilesTableRow.reachable props c ->
             length (LibraryFilesTableRow.inFlight c) <= 1).
Proof.
  split; [|split].
  - intros c Hs. unfold LibraryFilesTableRow.saveToCloud. rewrite Hs. reflexivity.
  - intros c i settled. unfold LibraryFilesTableRow.saveToCloudSettled.
    destruct settled as [response | error]; simpl.
    + destruct (LibraryFilesTableRow.success response); reflexivity.
    + destruct (LibraryFilesTableRow.catchBlock error); reflexivity.
  - intros c Hc. rewrite (saveToCloud_invariant props c Hc).
    destruct (LibraryFilesTableRow.savingsToCloud c); lia.
Qed.

Lemma saveToCloud_single_flight_witness :
  LibraryFilesTableRow.savingsToCloud saving = true /\
  LibraryFilesTableRow.saveToCloud sampleRow saving = (None, saving) /\
  LibraryFilesTableRow.savingsToCloud
    (snd (LibraryFilesTableRow.saveToCloudSettled 0
            (LibraryFilesTableRow.Rejected None) saving)) = false /\
  length (LibraryFilesTableRow.inFlight saving) <= 1.
Proof.
  destruct (saveToCloud_single_flight sampleRow) as (Hbusy & Hdone & Hone).
  split; [reflexivity|].
  split; [apply Hbusy; reflexivity|].
  split; [apply Hdone|].
  apply Hone. unfold saving.
  eapply LibraryFilesTableRow.reachable_step.
  - apply LibraryFilesTableRow.reachable_mounted.
  - apply LibraryFilesTableRow.step_click.
Defined.


(** * Further properties of the code *)

(** ** Lifecycle *)

(** X1: with cloud storage switched off [init] returns normally after one log
    line: manager and world are untouched, and a manager that was not
    initialized then refuses to store ([cacheZipFile], [cacheFile]) and to
    sign ([getSignedUrlForZipFile] throws, [getSignedUrlForFile] answers
    [null]), all without a request. *)
Theorem init_disabled {World : Type} `{ObjectStore World}
    (st : Machine World) (settings : ServerSettings)
    (name : string) (data : Data) (expiresIn : option N) :
  cloudStorageEnabled settings = false ->
  isInitialized (this st) = false ->
  let st' := snd (init settings st) in
  fst (init settings st) = Returned tt /\
  this st' = this st /\ world st' = world st /\
  trace st' = trace st ++ [Log LogInfo "[StorageManager] Cloud storage disabled"] /\
  Archive.cacheZipFile name data st' = (Thrown (Error "S3 storage not initialized"), st') /\
  Files.cacheFile name data st' = (Thrown (Error "S3 storage not initialized"), st') /\
  Archive.getSignedUrlForZipFile name expiresIn st'
    = (Thrown (Error "S3 storage not initialized"), st') /\
  fst (Files.getSignedUrlForFile name expiresIn st') = Returned None /\
  count isNetworkCall (trace (snd (Files.getSignedUrlForFile name expiresIn st')))
    = count isNetworkCall (trace st).
Proof.
  intros Hoff Hinit. simpl.
  unfold init, Archive.cacheZipFile, Files.cacheFile, Files.getSignedUrlForFile,
    Archive.getSignedUrlForZipFile.
  rewrite Hoff. js. rewrite Hinit. simpl.
  rewrite !count_app. unfold count. simpl. repeat split; lia.
Qed.

Lemma init_disabled_witness :
  cloudStorageEnabled disabledSettings = false /\
  isInitialized (this (start emptyStore)) = false /\
  fst (init disabledSettings (start emptyStore)) = Returned tt /\
  this (snd (init disabledSettings (start emptyStore))) = constructor.
Proof.
  split; [reflexivity|]. split; [reflexivity|].
  destruct (init_disabled (start emptyStore) disabledSettings "book1" (Buffer "PK") None
              eq_refl eq_refl) as (Hr & Hthis & _).
  split; [exact Hr | exact Hthis].
Defined.

(** X2: when the bucket probe of a complete configuration fails, [init] throws
    a plain [Error] whose message wraps the cause (the cause's name is
    lost); the manager has by then taken the new client and bucket, while
    [isInitialized] is as before: a manager that was initialized stays so
    and from then on sends to the bucket that failed the probe. *)
Theorem init_probe_failure {World : Type} `{ObjectStore World}
    (st : Machine World) (settings : ServerSettings) (e : JsError) :
  cloudStorageEnabled settings = true ->
  incomplete settings = false ->
  fst (s3_send (clientOf settings) (HeadBucketCommand (cloudStorageS3Bucket settings))
         (world st)) = Thrown e ->
  let st' := snd (init settings st) in
  fst (init settings st) = Thrown (Error ("S3 bucket access failed: " +:+ message e)) /\
  isNotFound (Error ("S3 bucket access failed: " +:+ message e)) = false /\
  s3Client (this st') = Some (clientOf settings) /\
  bucket (this st') = cloudStorageS3Bucket settings /\
  isInitialized (this st') = isInitialized (this st) /\
  count isProbe (trace st') = count isProbe (trace st) + 1.
Proof.
  intros Hen Hinc Hprobe. simpl.
  rewrite (init_complete st settings Hen Hinc).
  destruct (s3_send (clientOf settings) _ (world st)) as [r w]. simpl in Hprobe. subst r.
  simpl. rewrite !count_app. unfold count. simpl. repeat split; lia.
Qed.

Lemma init_probe_failure_witness :
  cloudStorageEnabled otherSettings = true /\
  incomplete otherSettings = false /\
  isInitialized (this (readyOn emptyStore)) = true /\
  fst (init otherSettings (readyOn emptyStore))
    = Thrown (Error "S3 bucket access failed: UnknownError") /\
  isInitialized (this (snd (init otherSettings (readyOn emptyStore)))) = true /\
  bucket (this (snd (init otherSettings (readyOn emptyStore)))) = Some "elsewhere".
Proof.
  split; [reflexivity|]. split; [reflexivity|]. split; [reflexivity|].
  assert (fst (s3_send (clientOf otherSettings)
                 (HeadBucketCommand (cloudStorageS3Bucket otherSettings))
                 (world (readyOn emptyStore))) = Thrown NotFound) as Hprobe
    by (vm_compute; reflexivity).
  destruct (init_probe_failure (readyOn emptyStore) otherSettings NotFound
              eq_refl eq_refl Hprobe) as (Hr & _ & _ & Hb & Hi & _).
  split; [exact Hr|]. split; [exact Hi | exact Hb].
Defined.

(** The manager object after [init], by the configuration and by what the
    store answers to the probe. *)
Lemma init_this {World : Type} `{ObjectStore World}
    (st : Machine World) (settings : ServerSettings) :
  this (snd (init settings st)) =
    if negb (cloudStorageEnabled settings) || incomplete settings then this st
    else
      let configured :=
        set_bucket (cloudStorageS3Bucket settings) (set_s3Client (clientOf settings) (this st)) in
      match fst (s3_send (clientOf settings) (HeadBucketCommand (cloudStorageS3Bucket settings))
                   (world st)) with
      | Returned _ => set_isInitialized true configured
      | Thrown _ => configured
      end.
Proof.
  destruct (cloudStorageEnabled settings) eqn:Hen; simpl.
  - destruct (incomplete settings) eqn:Hinc.
    + unfold incomplete in Hinc. unfold init, initS3Storage. rewrite Hen. simpl.
      destruct (falsy (cloudStorageS3Region settings) || falsy (cloudStorageS3Bucket settings));
        [reflexivity|].
      simpl in Hinc. rewrite Hinc. reflexivity.
    + rewrite (init_complete st settings Hen Hinc).
      destruct (s3_send (clientOf settings) _ (world st)) as [[[]|e] w]; reflexivity.
  - unfold init. rewrite Hen. reflexivity.
Qed.

(** X3: only [init] writes the manager object: caching, signing and the
    existence check leave every field as it was, whatever the store
    answers. *)
Theorem only_init_writes_manager {World : Type} `{ObjectStore World}
    (st : Machine World) (name : string) (data : Data) (expiresIn : option N)
    (filename : option string) :
  this (snd (Archive.cacheZipFile name data st)) = this st /\
  this (snd (Archive.getSignedUrlForZipFile name expiresIn st)) = this st /\
  this (snd (Archive.zipFileExists name filename st)) = this st /\
  this (snd (Files.cacheFile name data st)) = this st /\
  this (snd (Files.getSignedUrlForFile name expiresIn st)) = this st /\
  this (snd (Files.zipFileExists name filename st)) = this st.
Proof.
  unfold Archive.cacheZipFile, Archive.getSignedUrlForZipFile, Archive.zipFileExists,
    Files.cacheFile, Files.getSignedUrlForFile, Files.zipFileExists.
  js. repeat split; js_cases.
Qed.

Lemma Archive_perform_this {World : Type} `{ObjectStore World}
    (c : Archive.Call) (st : Machine World) :
  this (snd (Archive.perform c st)) =
    match c with
    | Archive.CallInit settings => this (snd (init settings st))
    | _ => this st
    end.
Proof.
  destruct c as [settings | itemId data | itemId expiresIn | itemId filename];
    [reflexivity | | |]; unfold Archive.perform;
    unfold Archive.cacheZipFile, Archive.getSignedUrlForZipFile, Archive.zipFileExists;
    js; js_cases.
Qed.

Lemma Files_perform_this {World : Type} `{ObjectStore World}
    (c : Files.Call) (st : Machine World) :
  this (snd (Files.perform c st)) =
    match c with
    | Files.CallInit settings => this (snd (init settings st))
    | _ => this st
    end.
Proof.
  destruct c as [settings | fileName data | fileName expiresIn | itemId filename];
    [reflexivity | | |]; unfold Files.perform;
    unfold Files.cacheFile, Files.getSignedUrlForFile, Files.zipFileExists;
    js; js_cases.
Qed.

Lemma init_keeps_initialized {World : Type} `{ObjectStore World}
    (st : Machine World) (settings : ServerSettings) :
  isInitialized (this st) = true -> isInitialized (this (snd (init settings st))) = true.
Proof.
  intros Hinit. rewrite init_this.
  destruct (negb (cloudStorageEnabled settings) || incomplete settings); [exact Hinit|].
  simpl. destruct (fst (s3_send _ _ _)); [reflexivity | exact Hinit].
Qed.

(** X4: no method ever clears [isInitialized]: a manager that is initialized
    is still initialized after any call, also after an [init] that failed
    or found cloud storage switched off. *)
Theorem initialized_for_good {World : Type} `{ObjectStore World}
    (st : Machine World) (a : Archive.Call) (f : Files.Call) :
  isInitialized (this st) = true ->
  isInitialized (this (snd (Archive.perform a st))) = true /\
  isInitialized (this (snd (Files.perform f st))) = true.
Proof.
  intros Hinit. rewrite Archive_perform_this, Files_perform_this. split.
  - destruct a; try exact Hinit. apply init_keeps_initialized, Hinit.
  - destruct f; try exact Hinit. apply init_keeps_initialized, Hinit.
Qed.

Lemma initialized_for_good_witness :
  isInitialized (this (readyOn emptyStore)) = true /\
  isInitialized (this (snd (Archive.perform (Archive.CallInit disabledSettings)
                              (readyOn emptyStore)))) = true /\
  isInitialized (this (snd (Files.perform (Files.CallInit noBucket)
                              (readyOn emptyStore)))) = true.
Proof.
  split; [reflexivity|].
  apply (initialized_for_good (readyOn emptyStore)
           (Archive.CallInit disabledSettings) (Files.CallInit noBucket)).
  reflexivity.
Defined.

Lemma init_equipped {World : Type} `{ObjectStore World}
    (st : Machine World) (settings : ServerSettings) :
  equipped (this st) -> equipped (this (snd (init settings st))).
Proof.
  intros Heq. rewrite init_this.
  destruct (negb (cloudStorageEnabled settings) || incomplete settings) eqn:Hc; [exact Heq|].
  apply orb_false_elim in Hc as [_ Hinc]. unfold incomplete in Hinc.
  apply orb_false_elim in Hinc as [Hinc _].
  apply orb_false_elim in Hinc as [Hinc _].
  apply orb_false_elim in Hinc as [_ Hb].
  simpl. destruct (fst (s3_send _ _ _)); intros _; simpl; split; eauto.
Qed.

(** X5: on every manager the module can get to, [isInitialized] comes with a
    client and a non-empty bucket name: the [TypeError] of a send on a
    [null] client is out of reach of an initialized manager. *)
Theorem initialized_is_equipped {World : Type} `{ObjectStore World}
    (m : StorageManager) :
  (Archive.reachable (World := World) m -> equipped m) /\
  (Files.reachable (World := World) m -> equipped m).
Proof.
  split.
  - induction 1 as [|c st _ IH]; [intros [=]|].
    rewrite Archive_perform_this. destruct c; try exact IH. apply init_equipped, IH.
  - induction 1 as [|c st _ IH]; [intros [=]|].
    rewrite Files_perform_this. destruct c; try exact IH. apply init_equipped, IH.
Qed.

Lemma initialized_is_equipped_witness :
  is_Some (s3Client readyManager) /\ falsy (bucket readyManager) = false.
Proof.
  destruct (initialized_is_equipped (World := MemStore) readyManager) as [HA _].
  apply HA; [|reflexivity].
  exact (Archive.reachable_call (Archive.CallInit validSettings) (start emptyStore)
           Archive.reachable_new).
Defined.

(** ** Storing *)

(** X6: on an initialized manager a store makes exactly one request, a [send]
    of a PutObject for a buffer and a multipart upload for a stream, to the
    manager's bucket under the derived key ([audiobooks/<itemId>.zip] with
    content type application/zip for [cacheZipFile], the sanitised file
    name with no content type for [cacheFile]); when the store accepts it
    the call returns that key, having written one log line. *)
Theorem cache_stores_once {World : Type} `{ObjectStore World}
    (st : Machine World) (client : S3Client) (name : string) (data : Data) :
  isInitialized (this st) = true ->
  s3Client (this st) = Some client ->
  let zip := PutObjectCommand (bucket (this st)) (Archive.getKey name) data
               (Some "application/zip") in
  let raw := PutObjectCommand (bucket (this st)) (Files.s3SafeFileName name) data None in
  (fst (storeAnswer client zip data (world st)) = Returned tt ->
   Archive.cacheZipFile name data st =
     (Returned (Archive.getKey name),
      {| this := this st; world := snd (storeAnswer client zip data (world st));
         trace := trace st ++
           [storeEvent client zip data;
            Log LogInfo ("[StorageManager] Cached audiobook to S3: " +:+ Archive.getKey name)] |})) /\
  (fst (storeAnswer client raw data (world st)) = Returned tt ->
   Files.cacheFile name data st =
     (Returned (Files.s3SafeFileName name),
      {| this := this st; world := snd (storeAnswer client raw data (world st));
         trace := trace st ++
           [storeEvent client raw data;
            Log LogInfo ("[StorageManager] Cached audiobook to S3: "
                         +:+ Files.s3SafeFileName name)] |})).
Proof.
  intros Hinit Hclient zip raw. subst zip raw.
  unfold Archive.cacheZipFile, Files.cacheFile, storeAnswer, storeEvent. js.
  rewrite Hinit. simpl. split; intros Hok.
  - destruct (isBuffer data); simpl; rewrite Hclient; simpl;
      match goal with |- context [?f client ?cmd (world st)] =>
        destruct (f client cmd (world st)) as [r w] end;
      simpl in *; subst r; simpl; rewrite <- app_assoc; reflexivity.
  - destruct (isBuffer data); simpl; rewrite Hclient; simpl;
      match goal with |- context [?f client ?cmd (world st)] =>
        destruct (f client cmd (world st)) as [r w] end;
      simpl in *; subst r; simpl; rewrite <- app_assoc; reflexivity.
Qed.

Lemma cache_stores_once_witness :
  isInitialized (this (readyOn emptyStore)) = true /\
  s3Client (this (readyOn emptyStore)) = Some (clientOf validSettings) /\
  fst (Archive.cacheZipFile "book1" (Stream "PK") (readyOn emptyStore))
    = Returned "audiobooks/book1.zip" /\
  fst (Files.cacheFile "My Book.ZIP" (Buffer "PK") (readyOn emptyStore))
    = Returned "my-book.zip".
Proof.
  split; [reflexivity|]. split; [reflexivity|].
  destruct (cache_stores_once (readyOn emptyStore) (clientOf validSettings)
              "book1" (Stream "PK") eq_refl eq_refl) as [HA _].
  destruct (cache_stores_once (readyOn emptyStore) (clientOf validSettings)
              "My Book.ZIP" (Buffer "PK") eq_refl eq_refl) as [_ HF].
  split.
  - rewrite HA; [reflexivity | vm_compute; reflexivity].
  - rewrite HF; [vm_compute; reflexivity | vm_compute; reflexivity].
Defined.

(** X7: the handlers whose log line reads an identifier nothing declares: on
    an initialized manager, when the one request of [cacheZipFile] or
    [cacheFile] is refused with any error, and when the probe of
    [getSignedUrlForFile] is refused with an error that is not 'not
    found', the caller gets a [ReferenceError] ([bookId], [bookId],
    [itemId]) in place of the cause, after that single request. *)
Theorem handler_reads_undeclared {World : Type} `{ObjectStore World}
    (st : Machine World) (client : S3Client) (name : string) (data : Data)
    (expiresIn : option N) (e : JsError) :
  isInitialized (this st) = true ->
  s3Client (this st) = Some client ->
  let zip := PutObjectCommand (bucket (this st)) (Archive.getKey name) data
               (Some "application/zip") in
  let raw := PutObjectCommand (bucket (this st)) (Files.s3SafeFileName name) data None in
  let head := HeadObjectCommand (bucket (this st)) (Files.s3SafeFileName name) in
  (fst (storeAnswer client zip data (world st)) = Thrown e ->
   Archive.cacheZipFile name data st =
     (Thrown (ReferenceError "bookId"),
      {| this := this st; world := snd (storeAnswer client zip data (world st));
         trace := trace st ++ [storeEvent client zip data] |})) /\
  (fst (storeAnswer client raw data (world st)) = Thrown e ->
   Files.cacheFile name data st =
     (Thrown (ReferenceError "bookId"),
      {| this := this st; world := snd (storeAnswer client raw data (world st));
         trace := trace st ++ [storeEvent client raw data] |})) /\
  (fst (s3_send client head (world st)) = Thrown e -> isNotFound e = false ->
   Files.getSignedUrlForFile name expiresIn st =
     (Thrown (ReferenceError "itemId"),
      {| this := this st; world := snd (s3_send client head (world st));
         trace := trace st ++ [Send client head] |})).
Proof.
  intros Hinit Hclient zip raw head. subst zip raw head.
  unfold Archive.cacheZipFile, Files.cacheFile, Files.getSignedUrlForFile,
    storeAnswer, storeEvent. js.
  rewrite Hinit. simpl. split; [|split].
  - intros Hbad. destruct (isBuffer data); simpl; rewrite Hclient; simpl;
      match goal with |- context [?f client ?cmd (world st)] =>
        destruct (f client cmd (world st)) as [r w] end;
      simpl in *; subst r; reflexivity.
  - intros Hbad. destruct (isBuffer data); simpl; rewrite Hclient; simpl;
      match goal with |- context [?f client ?cmd (world st)] =>
        destruct (f client cmd (world st)) as [r w] end;
      simpl in *; subst r; reflexivity.
  - intros Hbad He. rewrite Hclient. simpl.
    destruct (s3_send client _ (world st)) as [r w]. simpl in *. subst r.
    simpl. rewrite He. reflexivity.
Qed.

Lemma handler_reads_undeclared_witness :
  isInitialized (this (readyOn deniedStore)) = true /\
  s3Client (this (readyOn deniedStore)) = Some (clientOf validSettings) /\
  isNotFound accessDenied = false /\
  fst (Archive.cacheZipFile "book1" (Buffer "PK") (readyOn deniedStore))
    = Thrown (ReferenceError "bookId") /\
  fst (Files.cacheFile "book1.zip" (Stream "PK") (readyOn deniedStore))
    = Thrown (ReferenceError "bookId") /\
  fst (Files.getSignedUrlForFile "book1.zip" None (readyOn deniedStore))
    = Thrown (ReferenceError "itemId").
Proof.
  split; [reflexivity|]. split; [reflexivity|]. split; [reflexivity|].
  destruct (handler_reads_undeclared (readyOn deniedStore) (clientOf validSettings)
              "book1" (Buffer "PK") None accessDenied eq_refl eq_refl) as (HA & _ & _).
  destruct (handler_reads_undeclared (readyOn deniedStore) (clientOf validSettings)
              "book1.zip" (Stream "PK") None accessDenied eq_refl eq_refl) as (_ & HF & HS).
  split; [rewrite HA; reflexivity|].
  split; [rewrite HF; reflexivity|].
  rewrite HS; reflexivity.
Defined.

(** ** Signed URLs *)

(** X8: on an initialized manager, when the existence probe is answered by a
    'NotFound' or 'NoSuchKey' error, both signed-URL methods return [null]
    after that one request and a debug log line: the signer is not
    called. *)
Theorem signed_url_absent {World : Type} `{ObjectStore World}
    (st : Machine World) (client : S3Client) (name : string)
    (expiresIn : option N) (e : JsError) :
  isInitialized (this st) = true ->
  s3Client (this st) = Some client ->
  isNotFound e = true ->
  let zip := HeadObjectCommand (bucket (this st)) (Archive.getKey name) in
  let raw := HeadObjectCommand (bucket (this st)) (Files.s3SafeFileName name) in
  (fst (s3_send client zip (world st)) = Thrown e ->
   Archive.getSignedUrlForZipFile name expiresIn st =
     (Returned None,
      {| this := this st; world := snd (s3_send client zip (world st));
         trace := trace st ++
           [Send client zip;
            Log LogDebug ("[StorageManager] Audiobook not found in S3: "
                          +:+ Archive.getKey name)] |})) /\
  (fst (s3_send client raw (world st)) = Thrown e ->
   Files.getSignedUrlForFile name expiresIn st =
     (Returned None,
      {| this := this st; world := snd (s3_send client raw (world st));
         trace := trace st ++
           [Send client raw;
            Log LogDebug ("[StorageManager] Audiobook not found in S3: "
                          +:+ Files.s3SafeFileName name)] |})).
Proof.
  intros Hinit Hclient He zip raw. subst zip raw.
  unfold Archive.getSignedUrlForZipFile, Files.getSignedUrlForFile. js.
  rewrite Hinit. simpl. rewrite Hclient. simpl. split; intros Hp.
  - destruct (s3_send client _ (world st)) as [r w]. simpl in *. subst r.
    simpl. rewrite He. simpl. rewrite <- app_assoc. reflexivity.
  - destruct (s3_send client _ (world st)) as [r w]. simpl in *. subst r.
    simpl. rewrite He. simpl. rewrite <- app_assoc. reflexivity.
Qed.

Lemma signed_url_absent_witness :
  isInitialized (this (readyOn emptyStore)) = true /\
  s3Client (this (readyOn emptyStore)) = Some (clientOf validSettings) /\
  isNotFound NotFound = true /\
  fst (Archive.getSignedUrlForZipFile "book1" None (readyOn emptyStore)) = Returned None /\
  fst (Files.getSignedUrlForFile "book1.zip" None (readyOn emptyStore)) = Returned None.
Proof.
  split; [reflexivity|]. split; [reflexivity|]. split; [reflexivity|].
  destruct (signed_url_absent (readyOn emptyStore) (clientOf validSettings)
              "book1" None NotFound eq_refl eq_refl eq_refl) as [HA _].
  destruct (signed_url_absent (readyOn emptyStore) (clientOf validSettings)
              "book1.zip" None NotFound eq_refl eq_refl eq_refl) as [_ HF].
  split.
  - rewrite HA; [reflexivity | vm_compute; reflexivity].
  - rewrite HF; [reflexivity | vm_compute; reflexivity].
Defined.

(** X9: on an initialized manager, when the probe finds the object and the
    signer answers, both signed-URL methods return exactly the signer's
    URL; the signer was asked once, for a GetObject of the probed bucket
    and key, with the expiry given or 3600 seconds when none is. *)
Theorem signed_url_present {World : Type} `{ObjectStore World}
    (st : Machine World) (client : S3Client) (name : string)
    (expiresIn : option N) (signedUrl : string) :
  isInitialized (this st) = true ->
  s3Client (this st) = Some client ->
  let expiry := default 3600%N expiresIn in
  let answer key :=
    let probed := s3_send client (HeadObjectCommand (bucket (this st)) key) (world st) in
    let signed := s3_getSignedUrl client (GetObjectCommand (bucket (this st)) key) expiry
                    (snd probed) in
    (fst probed, fst signed, snd signed) in
  let events key :=
    [Send client (HeadObjectCommand (bucket (this st)) key);
     GetSignedUrl client (GetObjectCommand (bucket (this st)) key) expiry;
     Log LogInfo ("[StorageManager] Generated signed URL for audiobook: " +:+ key
                  +:+ " (expires in " +:+ pretty expiry +:+ "s)")] in
  (fst (answer (Archive.getKey name)) = (Returned tt, Returned signedUrl) ->
   Archive.getSignedUrlForZipFile name expiresIn st =
     (Returned (Some signedUrl),
      {| this := this st; world := snd (answer (Archive.getKey name));
         trace := trace st ++ events (Archive.getKey name) |})) /\
  (fst (answer (Files.s3SafeFileName name)) = (Returned tt, Returned signedUrl) ->
   Files.getSignedUrlForFile name expiresIn st =
     (Returned (Some signedUrl),
      {| this := this st; world := snd (answer (Files.s3SafeFileName name));
         trace := trace st ++ events (Files.s3SafeFileName name) |})).
Proof.
  intros Hinit Hclient expiry answer events. subst answer events expiry.
  unfold Archive.getSignedUrlForZipFile, Files.getSignedUrlForFile. js.
  rewrite Hinit. simpl. rewrite Hclient. simpl. split; intros Hok.
  - destruct (s3_send client _ (world st)) as [r w]. simpl in *.
    injection Hok as -> Hs. simpl. rewrite Hclient. simpl.
    destruct (s3_getSignedUrl client _ _ w) as [r' w']. simpl in *. subst r'.
    simpl. rewrite <- !app_assoc. reflexivity.
  - destruct (s3_send client _ (world st)) as [r w]. simpl in *.
    injection Hok as -> Hs. simpl. rewrite Hclient. simpl.
    destruct (s3_getSignedUrl client _ _ w) as [r' w']. simpl in *. subst r'.
    simpl. rewrite <- !app_assoc. reflexivity.
Qed.

Lemma signed_url_present_witness :
  isInitialized (this (readyOn stockedStore)) = true /\
  s3Client (this (readyOn stockedStore)) = Some (clientOf validSettings) /\
  fst (Archive.getSignedUrlForZipFile "book1" None (readyOn stockedStore))
    = Returned (Some "https://abs-cache.s3.eu-west-1.amazonaws.com/audiobooks/book1.zip?X-Amz-Expires=3600") /\
  fst (Files.getSignedUrlForFile "Book1.ZIP" (Some 60%N) (readyOn stockedStore))
    = Returned (Some "https://abs-cache.s3.eu-west-1.amazonaws.com/book1.zip?X-Amz-Expires=60").
Proof.
  split; [reflexivity|]. split; [reflexivity|].
  destruct (signed_url_present (readyOn stockedStore) (clientOf validSettings) "book1" None
              "https://abs-cache.s3.eu-west-1.amazonaws.com/audiobooks/book1.zip?X-Amz-Expires=3600"
              eq_refl eq_refl) as [HA _].
  destruct (signed_url_present (readyOn stockedStore) (clientOf validSettings) "Book1.ZIP"
              (Some 60%N)
              "https://abs-cache.s3.eu-west-1.amazonaws.com/book1.zip?X-Amz-Expires=60"
              eq_refl eq_refl) as [_ HF].
  split.
  - rewrite HA; [reflexivity | vm_compute; reflexivity].
  - rewrite HF; [reflexivity | vm_compute; reflexivity].
Defined.

(** ** Key derivation, further *)

Lemma list_ascii_of_string_app (a b : string) :
  list_ascii_of_string (a +:+ b) = list_ascii_of_string a ++ list_ascii_of_string b.
Proof. induction a as [|c a IH]; simpl; [reflexivity | rewrite IH; reflexivity]. Qed.

(** X10: [getKey] keeps items apart: two identifiers with the same archive key
    are the same identifier. *)
Theorem getKey_inj (itemId itemId' : string) :
  Archive.getKey itemId = Archive.getKey itemId' -> itemId = itemId'.
Proof.
  unfold Archive.getKey. intros Hk.
  apply (f_equal list_ascii_of_string) in Hk.
  rewrite !list_ascii_of_string_app in Hk.
  apply app_inv_head, app_inv_tail in Hk.
  rewrite <- (string_of_list_ascii_of_string itemId),
          <- (string_of_list_ascii_of_string itemId'), Hk.
  reflexivity.
Qed.

Lemma getKey_inj_witness :
  Archive.getKey "book1" = Archive.getKey "book1" /\ "book1" = "book1".
Proof.
  split; [reflexivity|]. apply (getKey_inj "book1" "book1"). reflexivity.
Defined.

Lemma trimStart_head (s : list ascii) (c : ascii) (t : list ascii) :
  trimStart s = c :: t -> isSpace c = false.
Proof.
  induction s as [|x s IH]; simpl; [discriminate|].
  destruct (isSpace x) eqn:Hx; [exact IH|].
  intros [= <- _]. exact Hx.
Qed.

Lemma trimStart_snoc (l : list ascii) (c : ascii) :
  isSpace c = false -> exists l', trimStart (l ++ [c]) = l' ++ [c].
Proof.
  intros Hc. induction l as [|x l IH]; simpl.
  - rewrite Hc. exists []. reflexivity.
  - destruct (isSpace x); [exact IH|]. exists (x :: l). reflexivity.
Qed.

Lemma last_rev_head (x : list ascii) : last (rev x) = head x.
Proof. destruct x as [|a x]; simpl; [reflexivity | apply last_snoc]. Qed.

(** A trimmed string neither starts nor ends with white space. *)
Lemma trim_ends (s : list ascii) :
  (forall c, head (trim s) = Some c -> isSpace c = false) /\
  (forall c, last (trim s) = Some c -> isSpace c = false).
Proof.
  unfold trim, trimEnd. split; intros c Hc.
  - destruct (trimStart s) as [|x u] eqn:Hu; [discriminate|].
    pose proof (trimStart_head s x u Hu) as Hx.
    simpl in Hc. destruct (trimStart_snoc (rev u) x Hx) as [l' Hl'].
    rewrite Hl', rev_unit in Hc. simpl in Hc. congruence.
  - rewrite last_rev_head in Hc.
    destruct (trimStart (rev (trimStart s))) as [|x u] eqn:Hu; [discriminate|].
    simpl in Hc. injection Hc as <-. eapply trimStart_head, Hu.
Qed.

Lemma collapseSpaces_head (s : list ascii) (c : ascii) :
  head (collapseSpaces s) = Some c -> isSpace c = true ->
  exists c0, head s = Some c0 /\ isSpace c0 = true.
Proof.
  destruct s as [|x t]; simpl; [discriminate|].
  destruct (isSpace x) eqn:Hx; [eauto|].
  simpl. intros [= <-] Hc. congruence.
Qed.

Lemma collapseSpaces_cons (c : ascii) (t : list ascii) :
  isSpace c = false -> collapseSpaces (c :: t) = c :: collapseSpaces t.
Proof. intros Hc. simpl. rewrite Hc. reflexivity. Qed.

Lemma adjacent_cons (p : ascii -> bool) (a b : ascii) (l : list ascii) :
  adjacent p (a :: b :: l) = (p a && p b) || adjacent p (b :: l).
Proof. reflexivity. Qed.

Lemma adjacent_cons_false (p : ascii -> bool) (a : ascii) (l : list ascii) :
  p a = false -> adjacent p (a :: l) = adjacent p l.
Proof.
  intros Ha. destruct l as [|b l]; [reflexivity|].
  rewrite adjacent_cons, Ha. reflexivity.
Qed.

Lemma collapseSpaces_space (c c' : ascii) (t : list ascii) :
  isSpace c = true ->
  collapseSpaces (c :: c' :: t) =
    if isSpace c' then collapseSpaces (c' :: t) else " "%char :: collapseSpaces (c' :: t).
Proof.
  intros Hc.
  change (collapseSpaces (c :: c' :: t)) with
    (if isSpace c
     then if isSpace c' then collapseSpaces (c' :: t) else " "%char :: collapseSpaces (c' :: t)
     else c :: collapseSpaces (c' :: t)).
  rewrite Hc. reflexivity.
Qed.

Lemma collapseSpaces_adjacent (s : list ascii) :
  adjacent isSpace (collapseSpaces s) = false.
Proof.
  induction s as [|x t IH]; [reflexivity|].
  destruct (isSpace x) eqn:Hx.
  - destruct t as [|c' t']; [simpl; rewrite Hx; reflexivity|].
    rewrite collapseSpaces_space by exact Hx.
    destruct (isSpace c') eqn:Hc'; [exact IH|].
    rewrite collapseSpaces_cons in IH |- * by exact Hc'.
    rewrite adjacent_cons, Hc', andb_false_r. exact IH.
  - rewrite collapseSpaces_cons by exact Hx.
    rewrite adjacent_cons_false by exact Hx. exact IH.
Qed.

Lemma collapseSpaces_last (s : list ascii) (c : ascii) :
  last (collapseSpaces s) = Some c -> isSpace c = true ->
  exists c0, last s = Some c0 /\ isSpace c0 = true.
Proof.
  induction s as [|x t IH]; [discriminate|].
  destruct (isSpace x) eqn:Hx.
  - destruct t as [|c' t']; [eauto|].
    rewrite collapseSpaces_space by exact Hx. rewrite last_cons_cons.
    destruct (isSpace c') eqn:Hc'; [exact IH|].
    rewrite collapseSpaces_cons in IH |- * by exact Hc'.
    rewrite last_cons_cons. exact IH.
  - rewrite collapseSpaces_cons by exact Hx. rewrite !last_cons. intros Hl Hc.
    destruct (last (collapseSpaces t)) as [y|] eqn:Hy.
    + injection Hl as ->. destruct (IH eq_refl Hc) as (c0 & Hc0 & Hs).
      exists c0. rewrite Hc0. split; [reflexivity | exact Hs].
    + injection Hl as ->. congruence.
Qed.

Lemma dash_of_collapsed (c : ascii) :
  isCollapsed c = true ->
  isDash (if isSpace (lowerChar c) then "-"%char else lowerChar c) = isSpace c.
Proof. each_char c. Qed.

Lemma dash_not_kept (c : ascii) : keptInExt c = true -> isDash c = false.
Proof. each_char c. Qed.

Lemma adjacent_dashes_of_spaces (l : list ascii) :
  Forall (fun c => isCollapsed c = true) l ->
  adjacent isDash (spacesToDashes (toLowerCase l)) = adjacent isSpace l.
Proof.
  unfold spacesToDashes, toLowerCase.
  induction 1 as [|a l Ha Hl IH]; [reflexivity|].
  destruct Hl as [|b l Hb Hl]; [reflexivity|].
  simpl map in *. rewrite !adjacent_cons, IH.
  rewrite (dash_of_collapsed a Ha), (dash_of_collapsed b Hb). reflexivity.
Qed.

Lemma adjacent_app (p : ascii -> bool) (a b : list ascii) :
  adjacent p a = false -> Forall (fun c => p c = false) b -> adjacent p (a ++ b) = false.
Proof.
  intros Ha Hb. induction a as [|x a IH]; simpl app.
  - induction Hb as [|y b Hy Hb IHb]; [reflexivity|].
    rewrite adjacent_cons_false by exact Hy. exact IHb.
  - destruct a as [|x' a].
    + simpl app. destruct Hb as [|y b Hy Hb]; [reflexivity|].
      rewrite adjacent_cons, Hy, andb_false_r, orb_false_l.
      rewrite adjacent_cons_false by exact Hy.
      clear -Hb. induction Hb as [|z b Hz Hb IHb]; [reflexivity|].
      rewrite adjacent_cons_false by exact Hz. exact IHb.
    + rewrite adjacent_cons in Ha. apply orb_false_elim in Ha as [Hxx Ha].
      simpl app. rewrite adjacent_cons, Hxx. exact (IH Ha).
Qed.

Lemma adjacent_removeLeadingSlash (p : ascii -> bool) (l : list ascii) :
  adjacent p l = false -> adjacent p (removeLeadingSlash l) = false.
Proof.
  destruct l as [|c t]; [trivial|]. simpl removeLeadingSlash.
  destruct (isSlash c); [|trivial].
  destruct t as [|c' t]; [trivial|].
  rewrite adjacent_cons. intros Ha. apply orb_false_elim in Ha as [_ Ha]. exact Ha.
Qed.

Lemma last_removeLeadingSlash (l : list ascii) (c : ascii) :
  last (removeLeadingSlash l) = Some c -> last l = Some c.
Proof.
  destruct l as [|x t]; [trivial|]. simpl removeLeadingSlash.
  destruct (isSlash x); [|trivial].
  destruct t as [|c' t]; [discriminate|]. rewrite last_cons_cons. trivial.
Qed.

Lemma safeExtOf_no_dash (ext : list ascii) :
  Forall (fun c => isDash c = false) (Files.safeExtOf ext).
Proof.
  unfold Files.safeExtOf, stripExt. apply Forall_forall. intros c Hc.
  apply list_elem_of_filter in Hc as [Hc _]. apply dash_not_kept, Hc.
Qed.

Lemma safeNameOf_dashes (name : list ascii) :
  adjacent isDash (Files.safeNameOf name) = false /\
  (forall c, last (Files.safeNameOf name) = Some c -> isDash c = false).
Proof.
  unfold Files.safeNameOf.
  assert (Forall (fun c => isCollapsed c = true)
            (collapseSpaces (trim (replaceUnsafe name)))) as Hall.
  { apply Forall_collapseSpaces, Forall_trim.
    unfold replaceUnsafe. rewrite Forall_fmap.
    apply Forall_forall. intros c _. apply replaceUnsafe_kept. }
  split.
  - rewrite adjacent_dashes_of_spaces by exact Hall. apply collapseSpaces_adjacent.
  - intros c Hc. unfold spacesToDashes, toLowerCase in Hc.
    rewrite map_map in Hc.
    change (map ?f ?l) with (f <$> l) in Hc. rewrite fmap_last in Hc.
    destruct (last (collapseSpaces (trim (replaceUnsafe name)))) as [y|] eqn:Hy;
      [|discriminate].
    simpl in Hc. injection Hc as <-.
    assert (isCollapsed y = true) as Hcy.
    { apply last_Some in Hy as [l' Hl']. rewrite Hl' in Hall.
      apply Forall_app in Hall as [_ Hall]. inversion Hall; assumption. }
    rewrite (dash_of_collapsed y Hcy).
    destruct (isSpace y) eqn:Hsy; [|reflexivity].
    destruct (collapseSpaces_last _ _ Hy Hsy) as (c0 & Hc0 & Hs0).
    destruct (trim_ends (replaceUnsafe name)) as [_ Hend].
    rewrite (Hend c0 Hc0) in Hs0. discriminate.
Qed.

(** X12: every derived key is free of doubled dashes and does not end with a
    dash: white space and replaced characters come out as single dashes
    between other characters. *)
Theorem s3SafeFileName_dashes (fileName : string) :
  adjacent isDash (chars (Files.s3SafeFileName fileName)) = false /\
  (forall c, last (chars (Files.s3SafeFileName fileName)) = Some c -> isDash c = false).
Proof.
  unfold Files.s3SafeFileName, chars, str.
  rewrite list_ascii_of_string_of_list_ascii.
  destruct (safeNameOf_dashes (Files.nameWithoutExtOf (list_ascii_of_string fileName)))
    as [Hadj Hlast].
  pose proof (safeExtOf_no_dash (Files.extOf (list_ascii_of_string fileName))) as Hext.
  split.
  - apply adjacent_app; [apply adjacent_removeLeadingSlash, Hadj | exact Hext].
  - intros c. rewrite last_app.
    destruct (last (Files.safeExtOf _)) as [y|] eqn:Hy.
    + intros [= <-]. apply last_Some in Hy as [l' Hl']. rewrite Hl' in Hext.
      apply Forall_app in Hext as [_ Hext]. inversion Hext; assumption.
    + intros Hc. apply Hlast, last_removeLeadingSlash, Hc.
Qed.

Lemma s3SafeFileName_dashes_witness :
  Files.s3SafeFileName "a - (b) --" = "a-b" /\
  adjacent isDash (chars (Files.s3SafeFileName "a - (b) --")) = false /\
  isDash "b"%char = false.
Proof.
  destruct (s3SafeFileName_dashes "a - (b) --") as [Hadj Hlast].
  split; [vm_compute; reflexivity|]. split; [exact Hadj|].
  apply Hlast. vm_compute. reflexivity.
Defined.

Lemma lastIndexOf_absent (c : ascii) (s : list ascii) (i acc : Z) :
  c ∉ s -> lastIndexOf_from c s i acc = acc.
Proof.
  revert i acc. induction s as [|x t IH]; intros i acc Hc; [reflexivity|].
  apply not_elem_of_cons in Hc as [Hx Ht]. simpl.
  rewrite (IH _ _ Ht).
  assert (Ascii.eqb x c = false) as -> by (apply Ascii.eqb_neq; congruence).
  reflexivity.
Qed.

Lemma lastIndexOf_split (c : ascii) (pre post : list ascii) (i acc : Z) :
  c ∉ post ->
  lastIndexOf_from c (pre ++ c :: post) i acc = (i + Z.of_nat (length pre))%Z.
Proof.
  intros Hpost. revert i acc. induction pre as [|x pre IH]; intros i acc; simpl.
  - rewrite (lastIndexOf_absent c post _ _ Hpost), Ascii.eqb_refl. lia.
  - rewrite IH. lia.
Qed.

Lemma ext_of_alnum (c : ascii) :
  isAlnum c = true -> keptInExt (lowerChar c) = true /\ isDot c = false.
Proof. each_char c. Qed.

Lemma alnum_no_dot (ext : list ascii) :
  Forall (fun c => isAlnum c = true) ext -> "."%char ∉ ext.
Proof.
  intros Hall Hin. rewrite Forall_forall in Hall.
  destruct (ext_of_alnum _ (Hall _ Hin)) as [_ Hdot]. discriminate.
Qed.

Lemma split_at_last_dot (name ext : list ascii) :
  name <> [] -> "."%char ∉ ext ->
  Files.extOf (name ++ "."%char :: ext) = "."%char :: ext /\
  Files.nameWithoutExtOf (name ++ "."%char :: ext) = name.
Proof.
  intros Hname Hext. unfold Files.nameWithoutExtOf, Files.extOf, lastIndexOf.
  rewrite (lastIndexOf_split "."%char name ext 0 (-1) Hext).
  assert ((0 <? 0 + Z.of_nat (length name))%Z = true) as ->.
  { destruct name; [congruence|]. simpl length. apply Z.ltb_lt. lia. }
  unfold substringFrom, substringTo.
  replace (Z.to_nat (0 + Z.of_nat (length name))) with (length name) by lia.
  rewrite drop_app_length, take_app_length. split; reflexivity.
Qed.

Lemma safeExtOf_alnum (ext : list ascii) :
  Forall (fun c => isAlnum c = true) ext ->
  Files.safeExtOf ("."%char :: ext) = "."%char :: toLowerCase ext.
Proof.
  intros Hall. unfold Files.safeExtOf, stripExt, toLowerCase. simpl map.
  rewrite filter_cons_True by reflexivity. f_equal.
  induction Hall as [|c ext Hc Hall IH]; [reflexivity|].
  simpl map. rewrite filter_cons_True by apply (ext_of_alnum c Hc).
  f_equal. exact IH.
Qed.

Lemma s3SafeFileName_with_ext (name ext : list ascii) :
  name <> [] ->
  Forall (fun c => isAlnum c = true) ext ->
  Files.s3SafeFileName (str (name ++ "."%char :: ext)) =
    str (removeLeadingSlash (Files.safeNameOf name) ++ "."%char :: toLowerCase ext).
Proof.
  intros Hname Hall. unfold Files.s3SafeFileName, chars, str.
  rewrite list_ascii_of_string_of_list_ascii.
  destruct (split_at_last_dot name ext Hname (alnum_no_dot ext Hall)) as [-> ->].
  rewrite (safeExtOf_alnum ext Hall). reflexivity.
Qed.

Lemma s3SafeFileName_without_dot (name : list ascii) :
  "."%char ∉ name ->
  Files.s3SafeFileName (str name) = str (removeLeadingSlash (Files.safeNameOf name)).
Proof.
  intros Hdot. unfold Files.s3SafeFileName, chars, str.
  rewrite list_ascii_of_string_of_list_ascii.
  unfold Files.nameWithoutExtOf, Files.extOf, lastIndexOf.
  rewrite (lastIndexOf_absent "."%char name 0 (-1) Hdot). simpl.
  rewrite app_nil_r. reflexivity.
Qed.

(** X13: a file name that ends in a dot and letters or digits, after a
    non-empty name, keeps that extension: the key is the sanitised name,
    without one leading slash, followed by the dot and the extension in
    lower case.  A file name without a dot gets no extension. *)
Theorem s3SafeFileName_extension (name ext : list ascii) :
  (name <> [] ->
   Forall (fun c => isAlnum c = true) ext ->
   Files.s3SafeFileName (str (name ++ "."%char :: ext)) =
     str (removeLeadingSlash (Files.safeNameOf name) ++ "."%char :: toLowerCase ext)) /\
  ("."%char ∉ name ->
   Files.s3SafeFileName (str name) = str (removeLeadingSlash (Files.safeNameOf name))).
Proof.
  split; [apply s3SafeFileName_with_ext | apply s3SafeFileName_without_dot].
Qed.

Lemma s3SafeFileName_extension_witness :
  Files.s3SafeFileName "/Lord of the Rings/CD 1.Mp3" = "lord-of-the-rings/cd-1.mp3" /\
  Files.s3SafeFileName "README" = "readme".
Proof.
  destruct (s3SafeFileName_extension (chars "/Lord of the Rings/CD 1") (chars "Mp3"))
    as [Hext _].
  destruct (s3SafeFileName_extension (chars "README") []) as [_ Hplain].
  split.
  - refine (eq_trans (Hext _ _) _).
    + discriminate.
    + repeat constructor.
    + vm_compute. reflexivity.
  - refine (eq_trans (Hplain _) _).
    + vm_compute. intros Hin. repeat (apply elem_of_cons in Hin as [[=]|Hin]).
      apply elem_of_nil in Hin. exact Hin.
    + vm_compute. reflexivity.
Defined.

Lemma plain_char (c : ascii) :
  isPlain c = true ->
  keptInName c = true /\ isSpace c = false /\ lowerChar c = c /\ isDot c = false.
Proof. each_char c. Qed.

Lemma trimStart_no_space (l : list ascii) :
  Forall (fun c => isSpace c = false) l -> trimStart l = l.
Proof. destruct 1 as [|c l Hc _]; simpl; [reflexivity | rewrite Hc; reflexivity]. Qed.

Lemma collapseSpaces_no_space (l : list ascii) :
  Forall (fun c => isSpace c = false) l -> collapseSpaces l = l.
Proof.
  induction 1 as [|c l Hc _ IH]; [reflexivity|].
  rewrite collapseSpaces_cons by exact Hc. rewrite IH. reflexivity.
Qed.

(** Sanitising leaves a name over [a-z0-9/] as it is. *)
Lemma safeNameOf_plain (name : list ascii) :
  Forall (fun c => isPlain c = true) name -> Files.safeNameOf name = name.
Proof.
  intros Hall.
  assert (Forall (fun c => isSpace c = false) name) as Hns.
  { eapply Forall_impl; [exact Hall|]. intros c Hc. apply (plain_char c Hc). }
  unfold Files.safeNameOf.
  assert (replaceUnsafe name = name) as ->.
  { unfold replaceUnsafe. clear Hns.
    induction Hall as [|c l Hc _ IH]; [reflexivity|]. simpl.
    destruct (plain_char c Hc) as (-> & _). rewrite IH. reflexivity. }
  assert (trim name = name) as ->.
  { unfold trim, trimEnd. rewrite (trimStart_no_space name Hns).
    rewrite trimStart_no_space by (apply Forall_rev, Hns). apply rev_involutive. }
  rewrite (collapseSpaces_no_space name Hns).
  unfold spacesToDashes, toLowerCase. clear Hns.
  induction Hall as [|c l Hc _ IH]; [reflexivity|]. simpl.
  destruct (plain_char c Hc) as (_ & Hs & -> & _). rewrite Hs, IH. reflexivity.
Qed.

(** X14: a key that is already in shape is a fixed point: a non-empty name over
    [a-z0-9/] that does not start with a slash, alone or followed by a dot
    and an extension over [a-z0-9], is derived to itself. *)
Theorem s3SafeFileName_fixed (c : ascii) (name ext : list ascii) :
  isSlash c = false ->
  Forall (fun c => isPlain c = true) (c :: name) ->
  Forall (fun c => isExtChar c = true) ext ->
  Files.s3SafeFileName (str (c :: name)) = str (c :: name) /\
  Files.s3SafeFileName (str ((c :: name) ++ "."%char :: ext))
    = str ((c :: name) ++ "."%char :: ext).
Proof.
  intros Hc Hname Hext.
  assert (Forall (fun c => isAlnum c = true) ext) as Halnum.
  { eapply Forall_impl; [exact Hext|]. intros x. unfold isExtChar, isAlnum.
    destruct (isLower x), (isDigit x), (isUpper x); simpl; congruence. }
  assert (toLowerCase ext = ext) as Hlow.
  { unfold toLowerCase. clear Halnum.
    induction Hext as [|x l Hx _ IH]; [reflexivity|]. simpl. rewrite IH. f_equal.
    assert (isPlain x = true) as Hp
      by (unfold isPlain; unfold isExtChar in Hx; rewrite Hx; reflexivity).
    apply (plain_char x Hp). }
  assert ("."%char ∉ c :: name) as Hdot.
  { intros Hin. rewrite Forall_forall in Hname.
    destruct (plain_char _ (Hname _ Hin)) as (_ & _ & _ & Hd). discriminate. }
  rewrite s3SafeFileName_with_ext by (congruence || exact Halnum).
  rewrite s3SafeFileName_without_dot by exact Hdot.
  rewrite (safeNameOf_plain (c :: name) Hname), Hlow.
  simpl removeLeadingSlash. rewrite Hc. split; reflexivity.
Qed.

Lemma s3SafeFileName_fixed_witness :
  Files.s3SafeFileName "books/dune" = "books/dune" /\
  Files.s3SafeFileName "books/dune.m4b" = "books/dune.m4b".
Proof.
  apply (s3SafeFileName_fixed "b"%char (chars "ooks/dune") (chars "m4b")).
  - reflexivity.
  - repeat constructor.
  - repeat constructor.
Defined.

(** ** The permission backfill, further *)

Lemma downUsers_lookup (rejected : string -> bool) (t : gmap string Migration.User)
    (j : string) :
  Migration.downUsers rejected t !! j = downgraded rejected j <$> t !! j.
Proof.
  unfold Migration.downUsers, Migration.downgradeUser.
  rewrite (foldl_rowwise Migration.oldPermissions) by apply selectRootAndAdmin_NoDup.
  rewrite selectRootAndAdmin_lookup. unfold downgraded.
  destruct (t !! j) as [u|]; simpl; [|reflexivity].
  destruct (Migration.isRootOrAdmin u); [|reflexivity].
  destruct (Migration.oldPermissions u); [|reflexivity].
  destruct (rejected j); reflexivity.
Qed.

(** X15: after a run of [up] whose UPDATE statements were all executed, every
    root or admin row whose permissions read as an object has
    [saveToCloud] defined: where the key was there, the permissions are
    as they were (a [false] stays [false]); where it was missing, they
    are the object as [JSON.stringify] writes it, with the key set to
    [true]. *)
Theorem up_grants (t : gmap string Migration.User) (id : string) (u : Migration.User)
    (fields : gmap string Migration.Json) :
  t !! id = Some u ->
  Migration.isRootOrAdmin u = true ->
  Migration.objectOf (Migration.permissions u) = Some fields ->
  exists u',
    Migration.upUsers Migration.executed t !! id = Some u' /\
    Migration.objectOf (Migration.permissions u') =
      Some (match fields !! "saveToCloud" with
            | Some _ => fields
            | None =>
                <["saveToCloud" := Migration.JBool true]> (Migration.stringified <$> fields)
            end) /\
    (Migration.objectOf (Migration.permissions u') ≫= lookup "saveToCloud") =
      Some (default (Migration.JBool true) (fields !! "saveToCloud")).
Proof.
  intros Ht Hu Hobj. rewrite upUsers_lookup, Ht. simpl. eexists. split; [reflexivity|].
  unfold upgraded, Migration.executed. rewrite Hu.
  destruct (Migration.newPermissions u) as [p|] eqn:Hp.
  - destruct (newPermissions_cases u p Hp) as [(flds & Hobj' & Hf & ->) | (Hcell & Hnull & Hno)].
    + rewrite Hobj in Hobj'. injection Hobj' as <-. rewrite Hf.
      unfold Migration.JSON_stringify. rewrite stringified_object, fmap_insert.
      simpl. rewrite lookup_insert_eq. split; reflexivity.
    + exfalso. rewrite Hcell in Hobj. simpl in Hobj.
      destruct p; try discriminate. exact (Hno _ eq_refl).
  - destruct u as [uname utype perms others].
    destruct perms as [|text|v]; mig_eval; rewrite ?lookup_empty in *; try discriminate.
    destruct v as [|b|bits|s|items|flds]; try discriminate.
    injection Hobj as ->.
    destruct (fields !! "saveToCloud") as [v|] eqn:Hf; [|discriminate].
    simpl. rewrite Hf. split; reflexivity.
Qed.

Lemma up_grants_witness :
  exists u',
    Migration.upUsers Migration.executed sampleUsers !! "3" = Some u' /\
    (Migration.objectOf (Migration.permissions u') ≫= lookup "saveToCloud")
      = Some (Migration.JBool false).
Proof.
  destruct (up_grants sampleUsers "3"
              (sampleUser "admin"
                 (Migration.CellJson
                    (Migration.JObject {[ "saveToCloud" := Migration.JBool false ]})))
              {[ "saveToCloud" := Migration.JBool false ]}
              eq_refl eq_refl eq_refl) as (u' & Hu' & _ & Hk).
  exists u'. split; [exact Hu' | exact Hk].
Defined.

Lemma downgraded_upgraded (id : string) (u : Migration.User) :
  downgraded Migration.executed id (upgraded Migration.executed id u) =
    if Migration.isRootOrAdmin u
    then Migration.withPermissions (restored (Migration.permissions u)) u
    else u.
Proof.
  unfold downgraded, upgraded, Migration.executed.
  destruct (Migration.isRootOrAdmin u) eqn:Hu; [|rewrite Hu; reflexivity].
  destruct u as [uname utype perms others].
  destruct perms as [|text|v]; mig_eval_down; rewrite ?lookup_empty.
  - rewrite Hu. unfold Migration.JSON_stringify. rewrite stringified_object.
    mig_eval_down. rewrite lookup_fmap, lookup_insert_eq. simpl.
    rewrite fmap_insert, delete_insert_eq, fmap_empty, delete_empty, fmap_empty.
    reflexivity.
  - rewrite Hu. reflexivity.
  - destruct v as [|b|bits|s|items|fields]; mig_eval_down;
      rewrite ?Hu; try reflexivity.
    + unfold Migration.JSON_stringify, restored. cbn [Migration.stringified].
      unfold Migration.stringifiedNumber.
      destruct (Migration.exponentOf bits =? 2047)%Z; [reflexivity|].
      destruct (bits =? Migration.negativeZero)%Z; reflexivity.
    + destruct (fields !! "saveToCloud") as [v|] eqn:Hf.
      * rewrite Hu. mig_eval_down. rewrite Hf. reflexivity.
      * rewrite Hu. unfold Migration.JSON_stringify. rewrite stringified_object.
        mig_eval_down. rewrite lookup_fmap, lookup_insert_eq. simpl.
        rewrite fmap_insert, delete_insert_eq, <- fmap_delete, <- map_fmap_compose.
        do 3 f_equal. apply map_fmap_ext. intros key x _. apply stringified_idem.
Qed.

(** X16: [down] after [up], both with every UPDATE executed: rows that are not
    root or admin come back as they were.  A root or admin row keeps its
    user name, type and other columns; its permissions come back as the
    empty object when they had been NULL or empty, as they were when they
    did not parse, as the object without [saveToCloud] (also when the key
    had been there before [up]) when they were an object, with the values
    of the other keys as [JSON.stringify] writes them, and otherwise as
    the value as [JSON.stringify] writes it. *)
Theorem down_after_up (t : gmap string Migration.User) (id : string) :
  Migration.downUsers Migration.executed (Migration.upUsers Migration.executed t) !! id =
    (fun u =>
       if Migration.isRootOrAdmin u then
         {| Migration.username := Migration.username u;
            Migration.type := Migration.type u;
            Migration.permissions :=
              match Migration.permissions u with
              | Migration.CellFalsy => Migration.CellJson (Migration.JObject ∅)
              | Migration.CellInvalid text => Migration.CellInvalid text
              | Migration.CellJson (Migration.JObject fields) =>
                  Migration.CellJson
                    (Migration.JObject
                       (Migration.stringified <$> delete "saveToCloud" fields))
              | Migration.CellJson v => Migration.CellJson (Migration.stringified v)
              end;
            Migration.otherColumns := Migration.otherColumns u |}
       else u) <$> t !! id.
Proof.
  rewrite downUsers_lookup, upUsers_lookup.
  destruct (t !! id) as [u|]; simpl; [|reflexivity].
  rewrite downgraded_upgraded. reflexivity.
Qed.

(** X17: [down] keeps every row under its id with its user name, type and other
    columns; the permissions of a row are either as before, or the row is
    of type 'root' or 'admin', its permissions read as an object that
    defines [saveToCloud], and they become that object without the key,
    as [JSON.stringify] writes it: every other key with its value as
    [JSON.stringify] writes that.  After a run whose UPDATE statements
    were all executed, another run changes nothing. *)
Theorem down_frame (rejected : string -> bool) (db : Migration.Database) :
  match Migration.users db with
  | None => Migration.down rejected db = db
  | Some t =>
      exists t',
        Migration.users (Migration.down rejected db) = Some t' /\
        forall id : string,
          match t !! id with
          | None => t' !! id = None
          | Some u =>
              exists u',
                t' !! id = Some u' /\
                Migration.username u' = Migration.username u /\
                Migration.type u' = Migration.type u /\
                Migration.otherColumns u' = Migration.otherColumns u /\
                (Migration.permissions u' = Migration.permissions u \/
                 exists fields,
                   Migration.isRootOrAdmin u = true /\
                   Migration.permissions u = Migration.CellJson (Migration.JObject fields) /\
                   is_Some (fields !! "saveToCloud") /\
                   Migration.permissions u' =
                     Migration.CellJson
                       (Migration.JObject
                          (Migration.stringified <$> delete "saveToCloud" fields)) /\
                   forall key : string,
                     key <> "saveToCloud" ->
                     (Migration.stringified <$> delete "saveToCloud" fields) !! key
                       = Migration.stringified <$> fields !! key)
          end
  end /\
  Migration.down rejected (Migration.down Migration.executed db)
    = Migration.down Migration.executed db.
Proof.
  split.
  - unfold Migration.down. destruct (Migration.users db) as [t|]; [|reflexivity].
    eexists. split; [reflexivity|]. intros id. simpl.
    rewrite downUsers_lookup. destruct (t !! id) as [u|]; simpl; [|reflexivity].
    eexists. split; [reflexivity|]. unfold downgraded.
    destruct (Migration.isRootOrAdmin u) eqn:Hu; [|auto].
    destruct (Migration.oldPermissions u) as [p|] eqn:Hp; [|auto].
    destruct (rejected id); [auto|].
    repeat split.
    destruct u as [uname utype perms others].
    destruct perms as [|text|v]; mig_eval_down; rewrite ?lookup_empty in Hp;
      try discriminate.
    destruct v as [|b|bits|s|items|fields]; mig_eval_down; try discriminate.
    destruct (fields !! "saveToCloud") as [v|] eqn:Hf; [|discriminate].
    injection Hp as <-. right. exists fields. rewrite Hf.
    repeat split; eauto.
    intros key Hkey. rewrite lookup_fmap, lookup_delete_ne by congruence. reflexivity.
  - unfold Migration.down. destruct (Migration.users db) as [t|] eqn:Ht; simpl.
    + f_equal. f_equal. apply map_eq. intros j.
      rewrite !downUsers_lookup. destruct (t !! j) as [u|]; simpl; [|reflexivity].
      f_equal. unfold downgraded, Migration.executed.
      destruct (Migration.isRootOrAdmin u) eqn:Hu; [|rewrite Hu; reflexivity].
      destruct u as [uname utype perms others].
      destruct perms as [|text|v]; mig_eval_down; rewrite ?lookup_empty;
        rewrite ?Hu; try reflexivity.
      destruct v as [|b|bits|s|items|fields]; mig_eval_down; rewrite ?Hu; try reflexivity.
      destruct (fields !! "saveToCloud") as [v|] eqn:Hf.
      * rewrite Hu. unfold Migration.JSON_stringify. rewrite stringified_object.
        mig_eval_down. rewrite lookup_fmap, lookup_delete_eq. reflexivity.
      * rewrite Hu. mig_eval_down. rewrite Hf. reflexivity.
    + rewrite Ht. reflexivity.
Qed.

Example down_after_up_sample :
  let t' := Migration.downUsers Migration.executed
              (Migration.upUsers Migration.executed sampleUsers) in
  Migration.permissions <$> t' !! "1"
    = Some (Migration.CellJson (Migration.JObject {[ "download" := Migration.JBool true ]})) /\
  Migration.permissions <$> t' !! "2" = Some (Migration.CellJson (Migration.JObject ∅)) /\
  Migration.permissions <$> t' !! "3" = Some (Migration.CellJson (Migration.JObject ∅)) /\
  t' !! "4" = sampleUsers !! "4" /\
  t' !! "5" = sampleUsers !! "5".
Proof. vm_compute. repeat split. Qed.

(** The same on the table with a limit held as [1e400] and an offset as
    [-0]: the limit comes back as [null], the offset as [0], and the cell
    that was the text [1e400] as [null]. *)
Example down_after_up_extreme :
  let t' := Migration.downUsers Migration.executed
              (Migration.upUsers Migration.executed extremeUsers) in
  Migration.permissions <$> t' !! "1"
    = Some (Migration.CellJson
              (Migration.JObject {[ "limit" := Migration.JNull;
                                    "offset" := Migration.JNumber 0;
                                    "download" := Migration.JBool true ]})) /\
  Migration.permissions <$> t' !! "2" = Some (Migration.CellJson Migration.JNull).
Proof. vm_compute. repeat split. Qed.

(** ** The file row, further *)

(** X18: the context menu and its handler agree: every item the menu offers has
    an action [contextMenuAction] acts on, no action is offered twice, the
    'more' item is offered exactly to an admin on an audio file outside
    the modal, and the menu is empty (its cell is not rendered) exactly
    when the user may neither download nor delete and gets no 'more'
    item. *)
Theorem contextMenu_handled (serverUrl : string) (props : LibraryFilesTableRow.Props)
    (viewer : LibraryFilesTableRow.Viewer) (file : LibraryFilesTableRow.FileView) :
  let items := LibraryFilesTableRow.contextMenuItems viewer file in
  let more :=
    LibraryFilesTableRow.userIsAdmin viewer
    && bool_decide (is_Some (LibraryFilesTableRow.audioFile file))
    && negb (LibraryFilesTableRow.inModal file) in
  Forall (fun item =>
            LibraryFilesTableRow.contextMenuAction serverUrl props viewer file
              (LibraryFilesTableRow.action item) <> []) items /\
  NoDup (LibraryFilesTableRow.action <$> items) /\
  ("more" ∈ (LibraryFilesTableRow.action <$> items) <-> more = true) /\
  (items = [] <->
   LibraryFilesTableRow.userCanDownload viewer = false /\
   LibraryFilesTableRow.userCanDelete viewer = false /\ more = false).
Proof.
  unfold LibraryFilesTableRow.contextMenuItems.
  destruct (LibraryFilesTableRow.userCanDownload viewer),
           (LibraryFilesTableRow.userCanDelete viewer),
           (LibraryFilesTableRow.userIsAdmin viewer
            && bool_decide (is_Some (LibraryFilesTableRow.audioFile file))
            && negb (LibraryFilesTableRow.inModal file));
    simpl; repeat split;
    try (repeat (apply Forall_cons; split; [discriminate|]); apply Forall_nil);
    try (repeat (apply NoDup_cons; split; [no_member|]); apply NoDup_nil);
    try discriminate; try reflexivity;
    try (intros _; rewrite !elem_of_cons; tauto);
    try no_member;
    try (intros (? & ? & ?); discriminate).
Qed.

(** X19: the toast of the [catch] block always carries a text: the message of
    the server's answer when it has a non-empty one, else the error's own
    non-empty message, else 'Failed to save to cloud'. *)
Theorem error_toast_text (error : LibraryFilesTableRow.AxiosError) :
  exists text,
    LibraryFilesTableRow.catchBlock (Some error)
      = Returned (LibraryFilesTableRow.ToastError text) /\
    text <> EmptyString /\
    text =
      (if negb (falsy (LibraryFilesTableRow.responseMessage error))
       then default EmptyString (LibraryFilesTableRow.responseMessage error)
       else if negb (falsy (LibraryFilesTableRow.errorMessage error))
       then default EmptyString (LibraryFilesTableRow.errorMessage error)
       else "Failed to save to cloud").
Proof.
  destruct error as [[[|a r]|] [[|b m]|]];
    (eexists; split; [reflexivity|]); simpl; split; (reflexivity || discriminate).
Qed.

(** X20: on a mounted row, whatever clicks and settlements came before,
    [savingsToCloud] is true exactly while a request is in flight: once the
    request has settled the flag is down, and the next click issues the
    save-to-cloud request of this row, with its five-minute timeout. *)
Theorem saveToCloud_recovers (props : LibraryFilesTableRow.Props)
    (c : LibraryFilesTableRow.Component) :
  LibraryFilesTableRow.reachable props c ->
  (LibraryFilesTableRow.savingsToCloud c = true <-> LibraryFilesTableRow.inFlight c <> []) /\
  (LibraryFilesTableRow.inFlight c = [] ->
   fst (LibraryFilesTableRow.saveToCloud props c)
     = Some {| LibraryFilesTableRow.url :=
                 "/api/items/" +:+ LibraryFilesTableRow.libraryItemId props +:+ "/file/"
                 +:+ LibraryFilesTableRow.fileIno props +:+ "/saveToCloud";
               LibraryFilesTableRow.timeout := 300000 |}).
Proof.
  intros Hc. pose proof (saveToCloud_invariant props c Hc) as Hinv.
  unfold LibraryFilesTableRow.saveToCloud.
  destruct (LibraryFilesTableRow.savingsToCloud c);
    destruct (LibraryFilesTableRow.inFlight c); simpl in *; try discriminate.
  - split; [split; [discriminate | reflexivity] | discriminate].
  - split; [split; [discriminate | congruence] | reflexivity].
Qed.

Lemma saveToCloud_recovers_witness :
  LibraryFilesTableRow.inFlight saved = [] /\
  fst (LibraryFilesTableRow.saveToCloud sampleRow saved)
    = Some {| LibraryFilesTableRow.url := "/api/items/li_1/file/42/saveToCloud";
              LibraryFilesTableRow.timeout := 300000 |}.
Proof.
  split; [reflexivity|].
  refine (proj2 (saveToCloud_recovers sampleRow saved _) eq_refl).
  eapply LibraryFilesTableRow.reachable_step.
  - eapply LibraryFilesTableRow.reachable_step.
    + apply LibraryFilesTableRow.reachable_mounted.
    + apply LibraryFilesTableRow.step_click.
  - apply (LibraryFilesTableRow.step_settle sampleRow saving 0). simpl. lia.
Defined.

Lemma split_at_only (c : ascii) (a b a' b' : list ascii) :
  c ∉ a' -> c ∉ b' -> a ++ c :: b = a' ++ c :: b' -> a = a' /\ b = b'.
Proof.
  intros Ha' Hb'. revert a. induction a' as [|y a' IH]; intros a Heq.
  - destruct a as [|x a]; simpl in Heq.
    + injection Heq as ->. split; reflexivity.
    + injection Heq as -> <-. exfalso. apply Hb'. set_solver.
  - apply not_elem_of_cons in Ha' as [Hy Ha'].
    destruct a as [|x a]; simpl in Heq.
    + injection Heq as -> _. congruence.
    + injection Heq as -> Heq. destruct (IH Ha' a Heq) as [-> ->]. split; reflexivity.
Qed.

Lemma body_no_dot (l : list ascii) :
  Forall (fun c => isBodyChar c = true) l -> "."%char ∉ l.
Proof.
  intros Hall Hin. rewrite Forall_forall in Hall. specialize (Hall _ Hin). discriminate.
Qed.

Lemma ext_no_dot (l : list ascii) :
  Forall (fun c => isExtChar c = true) l -> "."%char ∉ l.
Proof.
  intros Hall Hin. rewrite Forall_forall in Hall. specialize (Hall _ Hin). discriminate.
Qed.

(** X11: every character of a derived key is a lower-case letter, a digit,
    a dash, a slash or a dot (no white space, no capital, nothing else),
    and a key has at most one dot: wherever it is split at a dot, what
    comes before is over [a-z0-9/-] and what comes after over [a-z0-9]. *)
Theorem s3SafeFileName_alphabet (fileName : string) :
  Forall (fun c => isBodyChar c || isDot c = true) (chars (Files.s3SafeFileName fileName)) /\
  (forall pre post,
     chars (Files.s3SafeFileName fileName) = pre ++ "."%char :: post ->
     Forall (fun c => isBodyChar c = true) pre /\ Forall (fun c => isExtChar c = true) post).
Proof.
  destruct (s3SafeFileName_shape fileName) as (body & ext & -> & Hbody & Hext).
  split.
  - apply Forall_app. split.
    + eapply Forall_impl; [exact Hbody|]. intros c ->. reflexivity.
    + destruct Hext as [-> | (rest & -> & Hrest)]; [constructor|].
      constructor; [reflexivity|].
      eapply Forall_impl; [exact Hrest|]. intros c Hc.
      unfold isBodyChar. unfold isExtChar in Hc.
      destruct (isLower c), (isDigit c); simpl in *; congruence.
  - intros pre post Heq. destruct Hext as [-> | (rest & -> & Hrest)].
    + rewrite app_nil_r in Heq. exfalso. apply (body_no_dot body Hbody).
      rewrite Heq. set_solver.
    + symmetry in Heq.
      destruct (split_at_only _ _ _ _ _ (body_no_dot body Hbody) (ext_no_dot rest Hrest) Heq)
        as [-> ->].
      split; assumption.
Qed.

Lemma s3SafeFileName_alphabet_witness :
  Forall (fun c => isBodyChar c = true) (chars "my-book-part-1-/chapter") /\
  Forall (fun c => isExtChar c = true) (chars "mp3").
Proof.
  apply (proj2 (s3SafeFileName_alphabet "My Book (Part 1)/Chapter.MP3")).
  vm_compute. reflexivity.
Defined.
